(** * scim2_tester.checker: the random-URL check and the orchestrator

    A shallow embedding of [src/scim2_tester/checker.py].  Python values that
    the checker handles are modelled by small inductive types, exceptions and
    the state of the outside world (the SCIM server behind the client and the
    UUID generator) by a state-and-exception monad. *)

From Stdlib Require Import String Ascii List ZArith Bool Lia.
From Stdlib Require Import DecimalString.
From Stdlib Require Strings.Byte.
Import ListNotations.
Local Open Scope list_scope.
Local Open Scope string_scope.

(** ** Strings: [str(int)] and the [in] test on strings *)

(** Python's [str] on an [int]. *)
Definition str_int (z : Z) : string := NilZero.string_of_int (Z.to_int z).

(** Python's [str] on an [Optional[int]]. *)
Definition str_opt_int (o : option Z) : string :=
  match o with
  | Some z => str_int z
  | None => "None"
  end.

(** [contains sub s] is Python's [sub in s]. *)
Fixpoint contains (sub s : string) : bool :=
  String.prefix sub s ||
  match s with
  | EmptyString => false
  | String _ s' => contains sub s'
  end.

(** ** Result model

    [scim2_tester.utils] is not part of the sources at hand; the enumeration
    and the record are read off the specification's data model. *)

(** Modelled from the spec: the [Status] enumeration of
    [scim2_tester.utils] (closed: SUCCESS, ERROR, SKIPPED). *)
Inductive Status : Set := SUCCESS | ERROR | SKIPPED.

(** The [Error] message of [scim2_models]; only [status] is inspected. *)
Record Error : Set := mkError {
  err_status : option Z;
  err_scim_type : option string;
  err_detail : option string
}.

(** The response object of an HTTP exchange ([exc.response]). *)
Record Response : Set := mkResponse {
  status_code : Z;
  content : list Byte.byte
}.

(** Python exceptions, by the classes the checker distinguishes.
    [HTTPError] stands for [httpx.HTTPError] and its subclasses,
    [SCIMClientError] for [scim2_client.SCIMClientError] and its subclasses,
    [TypeError] for the builtin, [OtherError cls msg] for anything else. *)
Inductive Exc : Set :=
| HTTPError (msg : string)
| SCIMClientError (msg : string) (response : Response)
| TypeError (msg : string)
| OtherError (cls msg : string).

(** [str(exc)] *)
Definition str_exc (e : Exc) : string :=
  match e with
  | HTTPError m => m
  | SCIMClientError m _ => m
  | TypeError m => m
  | OtherError _ m => m
  end.

(** The outcome of a call: a value, or a raised exception. *)
Inductive Result (A : Type) : Type :=
| Ok (a : A)
| Raise (e : Exc).
Arguments Ok {A} a.
Arguments Raise {A} e.

Section Model.

(** Protocol objects of [scim2_models] other than [Error]. *)
Variable Resource : Type.

(** What [scim.query] hands back: a typed protocol object;
    [isinstance(response, Error)] is the constructor test. *)
Inductive ProtocolObject : Type :=
| ErrorObject (e : Error)
| ResourceObject (r : Resource).

(** The [data] payload of a result ("optional any"). *)
Inductive Data : Type :=
| DataObject (o : ProtocolObject)
| DataBytes (b : list Byte.byte).

(** Modelled from the spec: the [CheckResult] record of
    [scim2_tester.utils]; every field but [status] is optional, as the
    constructor calls of [check_random_url] leave them out. *)
Record CheckResult : Type := mkCheckResult {
  status : Status;
  title : option string;
  reason : option string;
  data : option Data
}.

(** The title derived from the check's name, unless the check set one. *)
Definition with_title (name : string) (r : CheckResult) : CheckResult :=
  match title r with
  | Some _ => r
  | None => mkCheckResult (status r) (Some name) (reason r) (data r)
  end.

(** What a check hands back: a bare [CheckResult], or the tuple
    [(CheckResult, payload)]. *)
Inductive Returned (P : Type) : Type :=
| Single (r : CheckResult)
| Pair (r : CheckResult) (payload : P).
Arguments Single {P} r.
Arguments Pair {P} r payload.

Definition result_of {P} (x : Returned P) : CheckResult :=
  match x with
  | Single r => r
  | Pair r _ => r
  end.

(** ** The world and the monad of checks *)

(** State of the server reached through the client, and of the UUID
    generator. *)
Variable Server : Type.
Variable Rng : Type.

Record World : Type := mkWorld {
  server : Server;
  rng : Rng
}.

Definition M (A : Type) : Type := World -> Result A * World.

Definition ret {A} (a : A) : M A := fun w => (Ok a, w).

Definition raise {A} (e : Exc) : M A := fun w => (Raise e, w).

Definition bind {A B} (m : M A) (k : A -> M B) : M B :=
  fun w =>
    match m w with
    | (Ok a, w') => k a w'
    | (Raise e, w') => (Raise e, w')
    end.

(** The outcome of a [try] block, handed to its [except] clauses. *)
Definition attempt {A} (m : M A) : M (Result A) :=
  fun w => let (o, w') := m w in (Ok o, w').

Notation "x <- m ;; k" := (bind m (fun x => k))
  (at level 61, m at next level, right associativity).

(** [uuid.uuid4()] rendered by [str]. *)
Variable uuid4 : Rng -> string * Rng.

Definition str_uuid4 : M string :=
  fun w => let (u, g) := uuid4 (rng w) in (Ok u, mkWorld (server w) g).

(** [scim.query(url=...)]: the client [scim] is known by this method, which
    hands back a protocol object or raises; the exchange may change the
    server. *)
Variable query : string -> Server -> Result ProtocolObject * Server.

Definition scim_query (url : string) : M ProtocolObject :=
  fun w => let (o, s) := query url (server w) in (o, mkWorld s (rng w)).

(** The URL that a run of [check_random_url] started in world [w]
    requests, and what the client answers to it. *)
Definition random_url (w : World) : string := "/" ++ fst (uuid4 (rng w)).

Definition answer (w : World) : Result ProtocolObject :=
  fst (query (random_url w) (server w)).

(** ** The execution wrapper *)

(** Modelled from the spec: [scim2_tester.utils.decorate_result], which is
    not in the sources at hand.  It calls the check once; a transport
    failure becomes [CheckResult(status=ERROR, reason=str(exc))], a protocol
    failure the same with the raw response body as [data], any other raised
    condition a single ERROR result carrying the failure description; a
    returned result or pair passes through and receives the check's name as
    title unless it has one. *)
Definition decorate_result {P} (name : string) (func : M (Returned P))
  : M (Returned P) :=
  fun w =>
    match func w with
    | (Ok (Single r), w') => (Ok (Single (with_title name r)), w')
    | (Ok (Pair r p), w') => (Ok (Pair (with_title name r) p), w')
    | (Raise (SCIMClientError m resp), w') =>
        (Ok (Single (mkCheckResult ERROR (Some name) (Some m)
                       (Some (DataBytes (content resp))))), w')
    | (Raise e, w') =>
        (Ok (Single (mkCheckResult ERROR (Some name) (Some (str_exc e)) None)),
         w')
    end.

(** Modelled from the spec: what the data model asks of a result, a title
    that names the check and, for an ERROR, a reason. *)
Definition well_formed (r : CheckResult) : Prop :=
  title r <> None /\ (status r = ERROR -> reason r <> None).

(** ** [check_random_url] *)

(** [response.status != 404] *)
Definition status_ne_404 (e : Error) : bool :=
  match err_status e with
  | Some z => negb (Z.eqb z 404)
  | None => true
  end.

(** The body of [check_random_url], lines 24-60. *)
Definition check_random_url_body : M (Returned ProtocolObject) :=
  u <- str_uuid4 ;;
  let probably_invalid_url := "/" ++ u in
  outcome <- attempt (scim_query probably_invalid_url) ;;
  match outcome with
  | Raise (HTTPError _ as exc) =>
      ret (Single (mkCheckResult ERROR None (Some (str_exc exc)) None))
  | Raise (SCIMClientError _ exc_response) =>
      ret (Single
             (mkCheckResult ERROR None
                (Some (probably_invalid_url ++ " did not return an Error object"))
                (Some (DataBytes (content exc_response)))))
  | Raise exc => raise exc
  | Ok (ResourceObject _ as response) =>
      ret (Single
             (mkCheckResult ERROR None
                (Some (probably_invalid_url ++ " did not return an Error object"))
                (Some (DataObject response))))
  | Ok (ErrorObject e as response) =>
      if status_ne_404 e then
        ret (Single
               (mkCheckResult ERROR None
                  (Some (probably_invalid_url
                         ++ " did return an object, but the status code is "
                         ++ str_opt_int (err_status e)))
                  (Some (DataObject response))))
      else
        ret (Pair
               (mkCheckResult SUCCESS None
                  (Some (probably_invalid_url ++ " correctly returned a 404 error"))
                  None)
               response)
  end.

Definition check_random_url : M (Returned ProtocolObject) :=
  decorate_result "check_random_url" check_random_url_body.

(** ** [check_server] *)

(** An element of the report: what [results.append] and [results.extend]
    received, a [CheckResult] or, from [check_random_url]'s last [return],
    the tuple of a [CheckResult] and the response. *)
Definition Entry : Type := Returned ProtocolObject.

(** Payloads of the discovery checks, handed on to later checks. *)
Variable ServiceProviderConfig : Type.
Variable Schemas : Type.
Variable ResourceType : Type.

(** The checks imported from [scim2_tester.service_provider_config],
    [scim2_tester.schemas], [scim2_tester.resource_types] and
    [scim2_tester.resource]; they run against the client, that is in the
    world.  The resource types payload is a list, or [None]. *)
Variable check_service_provider_config_endpoint
  : M (Returned ServiceProviderConfig).
Variable check_schemas_endpoint : M (Returned Schemas).
Variable check_resource_types_endpoint
  : M (Returned (option (list ResourceType))).
Variable check_resource_type
  : ResourceType -> ServiceProviderConfig -> M (list Entry).

(** [result, payload = value]: a bare [CheckResult] cannot be unpacked. *)
Definition unpack {P} (value : Returned P) : M (CheckResult * P) :=
  match value with
  | Pair r p => ret (r, p)
  | Single _ =>
      raise (TypeError "cannot unpack non-iterable CheckResult object")
  end.

(** [iter(resource_types)] at the head of the [for] statement. *)
Definition iterate {A} (xs : option (list A)) : M (list A) :=
  match xs with
  | Some l => ret l
  | None => raise (TypeError "'NoneType' object is not iterable")
  end.

(** The [for] loop of lines 81-84; [results] is the list being extended. *)
Fixpoint resource_checks (resource_types : list ResourceType)
    (service_provider_config : ServiceProviderConfig)
    (results : list Entry) : M (list Entry) :=
  match resource_types with
  | [] => ret results
  | resource_type :: rest =>
      new <- check_resource_type resource_type service_provider_config ;;
      resource_checks rest service_provider_config (results ++ new)%list
  end.

(** [check_server], lines 63-86. *)
Definition check_server : M (list Entry) :=
  let results : list Entry := [] in
  value <- check_service_provider_config_endpoint ;;
  unpacked <- unpack value ;;
  let '(result, service_provider_config) := unpacked in
  let results := (results ++ [Single result])%list in
  value <- check_schemas_endpoint ;;
  unpacked <- unpack value ;;
  let '(result, schemas) := unpacked in
  let results := (results ++ [Single result])%list in
  value <- check_resource_types_endpoint ;;
  unpacked <- unpack value ;;
  let '(result, resource_types) := unpacked in
  let results := (results ++ [Single result])%list in
  result <- check_random_url ;;
  let results := (results ++ [result])%list in
  items <- iterate resource_types ;;
  resource_checks items service_provider_config results.

(** What the command line prints of an entry: its status and title. *)
Definition summary (x : Entry) : Status * option string :=
  (status (result_of x), title (result_of x)).

(** The checks of [check_resource_type] run one after the other from
    world [w]: [rss] lists what each call returned, [w'] is the world
    after the last one. *)
Inductive resource_runs (service_provider_config : ServiceProviderConfig)
  : list ResourceType -> World -> list (list Entry) -> World -> Prop :=
| runs_nil w : resource_runs service_provider_config [] w [] w
| runs_cons resource_type rest w rs w1 rss w2 :
    check_resource_type resource_type service_provider_config w = (Ok rs, w1) ->
    resource_runs service_provider_config rest w1 rss w2 ->
    resource_runs service_provider_config (resource_type :: rest) w
      (rs :: rss) w2.

(** ** Comparing runs *)

(** Whether the client answered with an [Error] of status 404. *)
Definition found_404 (o : Result ProtocolObject) : bool :=
  match o with
  | Ok (ErrorObject e) => negb (status_ne_404 e)
  | _ => false
  end.

Definition skipped (x : Entry) : Prop := status (result_of x) = SKIPPED.

(** Two reports read the same on the command line. *)
Definition same_summaries (a b : list Entry) : Prop :=
  map summary a = map summary b.

(** Two values handed back by a discovery check are alike: same shape, same
    status and title, same payload. *)
Definition alike {P} (x y : Returned P) : Prop :=
  status (result_of x) = status (result_of y) /\
  title (result_of x) = title (result_of y) /\
  match x, y with
  | Single _, Single _ => True
  | Pair _ p, Pair _ q => p = q
  | _, _ => False
  end.

(** The same for the two halves of an unpacked tuple. *)
Definition paired {P} (p q : CheckResult * P) : Prop :=
  status (fst p) = status (fst q) /\
  title (fst p) = title (fst q) /\
  snd p = snd q.

(** Two entries read the same on the command line. *)
Definition same_summary (x y : Entry) : Prop := summary x = summary y.

Definition agree {A} (R : A -> A -> Prop) (o1 o2 : Result A) : Prop :=
  match o1, o2 with
  | Ok a, Ok b => R a b
  | Raise _, Raise _ => True
  | _, _ => False
  end.

(** [repeatable R m m']: against a given server, [m] and [m'] leave the server
    as it is and come out the same up to [R], whatever the state of the UUID
    generator. *)
Definition repeatable {A} (R : A -> A -> Prop) (m m' : M A) : Prop :=
  forall v v' : World,
    server v = server v' ->
    server (snd (m v)) = server v /\
    server (snd (m' v')) = server v' /\
    agree R (fst (m v)) (fst (m' v')).

(** ** Readings of the documentation that the code is measured against *)

(** Any parsed object is reported as "did return an object". *)
Definition reports_returned_object (w : World) : Prop :=
  forall o : ProtocolObject,
    answer w = Ok o ->
    exists x w' s,
      check_random_url w = (Ok x, w') /\
      status (result_of x) = ERROR /\
      reason (result_of x) = Some s /\
      contains "did return an object" s = true /\
      data (result_of x) = Some (DataObject o).

(** The reason of a result is never empty. *)
Definition reason_never_empty (w : World) : Prop :=
  forall x w',
    check_random_url w = (Ok x, w') ->
    exists s, reason (result_of x) = Some s /\ s <> "".

(** The service provider configuration could not be obtained. *)
Definition discovery_fails (w : World) : Prop :=
  exists x w',
    check_service_provider_config_endpoint w = (Ok x, w') /\
    status (result_of x) = ERROR.

(** The run completes with a report, not empty, in which every entry after
    the discovery and random URL results is SKIPPED. *)
Definition completes_skipping (w : World) : Prop :=
  exists report w',
    check_server w = (Ok report, w') /\
    report <> [] /\
    Forall skipped (skipn 4 report).

(** A second run, started where the first one ended, reads the same. *)
Definition reads_the_same_twice (w : World) : Prop :=
  agree same_summaries
    (fst (check_server w)) (fst (check_server (snd (check_server w)))).

End Model.


Arguments ErrorObject {Resource} e.
Arguments ResourceObject {Resource} r.
Arguments DataObject {Resource} o.
Arguments DataBytes {Resource} b.
Arguments mkCheckResult {Resource} status title reason data.
Arguments status {Resource} c.
Arguments title {Resource} c.
Arguments reason {Resource} c.
Arguments data {Resource} c.
Arguments with_title {Resource} name r.
Arguments well_formed {Resource} r.
Arguments Single {Resource P} r.
Arguments Pair {Resource P} r payload.
Arguments result_of {Resource P} x.
Arguments mkWorld {Server Rng} server rng.
Arguments server {Server Rng} w.
Arguments rng {Server Rng} w.
Arguments ret {Server Rng A} a w.
Arguments raise {Server Rng A} e w.
Arguments bind {Server Rng A B} m k w.
Arguments attempt {Server Rng A} m w.
Arguments str_uuid4 {Server Rng} uuid4 w.
Arguments scim_query {Resource Server Rng} query url w.
Arguments random_url {Server Rng} uuid4 w.
Arguments answer {Resource Server Rng} uuid4 query w.
Arguments decorate_result {Resource Server Rng P} name func w.
Arguments check_random_url_body {Resource Server Rng} uuid4 query w.
Arguments check_random_url {Resource Server Rng} uuid4 query w.
Arguments unpack {Resource Server Rng P} value w.
Arguments iterate {Server Rng A} xs w.
Arguments resource_checks {Resource Server Rng ServiceProviderConfig ResourceType}
  check_resource_type resource_types service_provider_config results w.
Arguments check_server {Resource Server Rng} uuid4 query
  {ServiceProviderConfig Schemas ResourceType}
  check_service_provider_config_endpoint check_schemas_endpoint
  check_resource_types_endpoint check_resource_type w.
Arguments summary {Resource} x.
Arguments resource_runs {Resource Server Rng ServiceProviderConfig ResourceType}
  check_resource_type service_provider_config _ _ _ _.

Arguments found_404 {Resource} o.
Arguments skipped {Resource} x.
Arguments same_summaries {Resource} a b.
Arguments alike {Resource P} x y.
Arguments paired {Resource P} p q.
Arguments same_summary {Resource} x y.
Arguments agree {A} R o1 o2.
Arguments repeatable {Server Rng A} R m m'.
Arguments reports_returned_object {Resource Server Rng} uuid4 query w.
Arguments reason_never_empty {Resource Server Rng} uuid4 query w.
Arguments discovery_fails {Resource Server Rng ServiceProviderConfig}
  check_service_provider_config_endpoint w.
Arguments completes_skipping {Resource Server Rng} uuid4 query
  {ServiceProviderConfig Schemas ResourceType}
  check_service_provider_config_endpoint check_schemas_endpoint
  check_resource_types_endpoint check_resource_type w.
Arguments reads_the_same_twice {Resource Server Rng} uuid4 query
  {ServiceProviderConfig Schemas ResourceType}
  check_service_provider_config_endpoint check_schemas_endpoint
  check_resource_types_endpoint check_resource_type w.

(** ** The command line, lines 89-115 *)

(** [result.status.name] *)
Definition status_name (s : Status) : string :=
  match s with
  | SUCCESS => "SUCCESS"
  | ERROR => "ERROR"
  | SKIPPED => "SKIPPED"
  end.

(** [str] on an optional string, as [print] renders it. *)
Definition str_opt (o : option string) : string :=
  match o with
  | Some s => s
  | None => "None"
  end.

(** What is printed is kept as the list of the texts handed to [print], one
    element for each call.  A call ends its text with a newline, so it fills
    one line of the terminal and one more for each newline in the text. *)
Fixpoint newlines (s : string) : nat :=
  match s with
  | EmptyString => 0
  | String c s' => (if Ascii.eqb c "010" then 1 else 0) + newlines s'
  end.

Definition terminal_lines (stdout : list string) : nat :=
  list_sum (map (fun s => S (newlines s)) stdout).

Section CommandLine.

Variable Resource : Type.

(** [str(result.data)], as [print] renders the payload. *)
Variable str_data : Data Resource -> string.

(** Truth value of [result.reason]: a string that is not empty. *)
Definition truthy_reason (r : option string) : bool :=
  match r with
  | Some s => negb (String.eqb s "")
  | None => false
  end.

(** Truth value of [result.data]: an object, or bytes that are not empty. *)
Definition truthy_data (d : option (Data Resource)) : bool :=
  match d with
  | Some (DataObject _) => true
  | Some (DataBytes []) => false
  | Some (DataBytes (_ :: _)) => true
  | None => false
  end.

(** What the body of the loop, lines 111-115, prints for one [CheckResult],
    one text for each call of [print]; [print] separates its arguments by a
    space. *)
Definition print_result (verbose : bool) (result : CheckResult Resource)
  : list string :=
  (status_name (status result) ++ " " ++ str_opt (title result))
  :: (if truthy_reason (reason result) then
        ("  " ++ " " ++ str_opt (reason result))
        :: (if verbose && truthy_data (data result) then
              match data result with
              | Some d => ["  " ++ " " ++ str_data d]
              | None => []
              end
            else [])
      else []).

(** The loop of lines 110-115 over the report; [stdout] holds what was
    printed so far.  A tuple has no attribute [status]. *)
Fixpoint print_results (verbose : bool) (results : list (Entry Resource))
    (stdout : list string) : Result unit * list string :=
  match results with
  | [] => (Ok tt, stdout)
  | Single result :: rest =>
      print_results verbose rest (stdout ++ print_result verbose result)%list
  | Pair _ _ :: _ =>
      (Raise (OtherError "AttributeError"
                "'tuple' object has no attribute 'status'"),
       stdout)
  end.

(** A result with its payload taken away. *)
Definition without_data (x : Entry Resource) : Entry Resource :=
  match x with
  | Single r => Single (mkCheckResult (status r) (title r) (reason r) None)
  | Pair r p => Pair (mkCheckResult (status r) (title r) (reason r) None) p
  end.

(** An entry whose title, reason and payload are printed without a
    newline. *)
Definition single_lined (x : Entry Resource) : Prop :=
  newlines (str_opt (title (result_of x))) = 0 /\
  newlines (str_opt (reason (result_of x))) = 0 /\
  (forall d, data (result_of x) = Some d -> newlines (str_data d) = 0).

Definition is_tuple (x : Entry Resource) : bool :=
  match x with
  | Single _ => false
  | Pair _ _ => true
  end.

Variables Server Rng : Type.
Variable uuid4 : Rng -> string * Rng.
Variable query : string -> Server -> Result (ProtocolObject Resource) * Server.
Variables ServiceProviderConfig Schemas ResourceType : Type.
Variable check_service_provider_config_endpoint
  : M Server Rng (Returned Resource ServiceProviderConfig).
Variable check_schemas_endpoint : M Server Rng (Returned Resource Schemas).
Variable check_resource_types_endpoint
  : M Server Rng (Returned Resource (option (list ResourceType))).
Variable check_resource_type
  : ResourceType -> ServiceProviderConfig ->
    M Server Rng (list (Entry Resource)).

(** Lines 109-115: the run, then the loop over its report; what comes out is
    the outcome, the lines printed and the world left behind. *)
Definition main (verbose : bool) (w : World Server Rng)
  : Result unit * list string * World Server Rng :=
  match
    check_server uuid4 query check_service_provider_config_endpoint
      check_schemas_endpoint check_resource_types_endpoint
      check_resource_type w
  with
  | (Ok results, w') => (print_results verbose results [], w')
  | (Raise exc, w') => (Raise exc, [], w')
  end.

End CommandLine.

Arguments truthy_data {Resource} d.
Arguments print_result {Resource} str_data verbose result.
Arguments print_results {Resource} str_data verbose results stdout.
Arguments without_data {Resource} x.
Arguments is_tuple {Resource} x.
Arguments single_lined {Resource} str_data x.
Arguments main {Resource} str_data {Server Rng} uuid4 query
  {ServiceProviderConfig Schemas ResourceType}
  check_service_provider_config_endpoint check_schemas_endpoint
  check_resource_types_endpoint check_resource_type verbose w.

(** Two outcomes of a check that differ at most by the payload of the
    tuple. *)
Definition same_but_payload {Resource Server Rng P Q : Type}
    (x : Result (Returned Resource P) * World Server Rng)
    (y : Result (Returned Resource Q) * World Server Rng) : Prop :=
  snd x = snd y /\
  match fst x, fst y with
  | Ok (Single r), Ok (Single r') => r = r'
  | Ok (Pair r _), Ok (Pair r' _) => r = r'
  | Raise e, Raise e' => e = e'
  | _, _ => False
  end.

(** The exceptions that [check_random_url] has no [except] clause for. *)
Definition uncaught (e : Exc) : bool :=
  match e with
  | HTTPError _ => false
  | SCIMClientError _ _ => false
  | TypeError _ => true
  | OtherError _ _ => true
  end.

(** ** Mock servers

    Concrete worlds on which the checks are run: resources are named by
    strings, the servers are stateless and the UUID generator is a counter
    that alternates between two UUIDs. *)
Module Mock.

Definition Resource : Type := string.
Definition Server : Type := unit.
Definition Rng : Type := nat.

Definition uuid_a : string := "7c9e6679-7425-40de-944b-e07fc1f90ae7".
Definition uuid_b : string := "16fd2706-8baf-433b-82eb-8c7fada847da".

Definition uuid4 (g : Rng) : string * Rng :=
  (if Nat.even g then uuid_a else uuid_b, S g).

(** A stateless server: the answer depends on the URL only. *)
Definition stateless (f : string -> Result (ProtocolObject Resource))
  : string -> Server -> Result (ProtocolObject Resource) * Server :=
  fun url s => (f url, s).

Definition not_found : ProtocolObject Resource :=
  ErrorObject (mkError (Some 404%Z) None (Some "Resource not found")).

Definition forbidden : ProtocolObject Resource :=
  ErrorObject (mkError (Some 403%Z) None (Some "Forbidden")).

Definition user : ProtocolObject Resource := ResourceObject "User".

Definition html : Response :=
  mkResponse 200 (list_byte_of_string "<html></html>").

(** Answers 404 with an [Error] to every URL. *)
Definition conformant := stateless (fun _ => Ok not_found).
(** Answers 200 with a [User] to every URL. *)
Definition permissive := stateless (fun _ => Ok user).
(** Answers 403 with an [Error] to every URL. *)
Definition guarded := stateless (fun _ => Ok forbidden).
(** Cannot be reached. *)
Definition unreachable :=
  stateless (fun _ => Raise (HTTPError "All connection attempts failed")).
(** Times out; [httpx] timeouts carry an empty message. *)
Definition silent := stateless (fun _ => Raise (HTTPError "")).
(** Answers with a page that is no SCIM message. *)
Definition garbled :=
  stateless
    (fun _ => Raise (SCIMClientError "Unexpected response content type" html)).
(** The client itself fails. *)
Definition broken :=
  stateless (fun _ => Raise (OtherError "ValueError" "invalid URL")).
(** Serves a [User] at one path and answers 404 to every other URL. *)
Definition selective :=
  stateless
    (fun url => if String.eqb url ("/" ++ uuid_b) then Ok user else Ok not_found).

Definition w0 : World Server Rng := mkWorld tt 0.

(** Discovery: the configuration is a name, or [None] when it was not
    obtained; schemas and resource types are named by strings. *)
Definition ServiceProviderConfig : Type := option string.
Definition Schemas : Type := list string.
Definition ResourceType : Type := string.

Definition Discovery (P : Type) : Type := M Server Rng (Returned Resource P).

(** A discovery check whose endpoint answers: [(CheckResult, payload)]. *)
Definition answered {P} (name : string) (payload : P) : Discovery P :=
  decorate_result name
    (ret (Pair (mkCheckResult SUCCESS None None None) payload)).

(** A discovery check that reports the failure itself and hands back a
    tuple all the same. *)
Definition reported {P} (name : string) (payload : P) : Discovery P :=
  decorate_result name
    (ret (Pair (mkCheckResult ERROR None (Some "no answer") None) payload)).

(** A discovery check whose endpoint cannot be reached: the transport error
    raised by the query reaches the wrapper. *)
Definition unreached {P} (name : string) : Discovery P :=
  decorate_result name (raise (HTTPError "All connection attempts failed")).

Definition config_endpoint : Discovery ServiceProviderConfig :=
  answered "check_service_provider_config_endpoint" (Some "config").
Definition config_reported : Discovery ServiceProviderConfig :=
  reported "check_service_provider_config_endpoint" None.
Definition config_unreached : Discovery ServiceProviderConfig :=
  unreached "check_service_provider_config_endpoint".
Definition schemas_endpoint : Discovery Schemas :=
  answered "check_schemas_endpoint"
    ["urn:ietf:params:scim:schemas:core:2.0:User"].
Definition resource_types_endpoint : Discovery (option (list ResourceType)) :=
  answered "check_resource_types_endpoint" (Some ["User"; "Group"]).
Definition resource_types_reported : Discovery (option (list ResourceType)) :=
  reported "check_resource_types_endpoint" None.

(** A resource check of one step, skipped when there is no configuration. *)
Definition lifecycle (resource_type : ResourceType)
    (service_provider_config : ServiceProviderConfig)
  : M Server Rng (list (Entry Resource)) :=
  ret [Single
         (mkCheckResult
            (match service_provider_config with
             | Some _ => SUCCESS
             | None => SKIPPED
             end)
            (Some ("check_resource_type " ++ resource_type)) None None)].

(** A resource types endpoint that lists nothing. *)
Definition no_resource_types : Discovery (option (list ResourceType)) :=
  answered "check_resource_types_endpoint" (Some []).

(** A schemas check that hands back another payload. *)
Definition other_schemas_endpoint : Discovery nat :=
  answered "check_schemas_endpoint" 7.

(** A resource check that raises on groups. *)
Definition fragile_lifecycle (resource_type : ResourceType)
    (service_provider_config : ServiceProviderConfig)
  : M Server Rng (list (Entry Resource)) :=
  if String.eqb resource_type "Group" then
    raise (OtherError "KeyError" "members")
  else lifecycle resource_type service_provider_config.

(** A discovery check that raises, outside any wrapper. *)
Definition crashing {P} : Discovery P :=
  raise (OtherError "KeyError" "patch").

(** [str] of a payload, in short. *)
Definition str_data (d : Data Resource) : string :=
  match d with
  | DataObject (ErrorObject _) => "Error"
  | DataObject (ResourceObject r) => r
  | DataBytes _ => "bytes"
  end.

End Mock.


(** * Properties *)

(** ** The [in] test *)

Lemma prefix_app (sub post : string) : String.prefix sub (sub ++ post) = true.
Proof.
  induction sub as [|c sub IH]; simpl.
  - destruct post; reflexivity.
  - destruct (Ascii.ascii_dec c c) as [_|n]; [exact IH | now elim n].
Qed.

Lemma prefix_split (sub s : string) :
  String.prefix sub s = true -> exists post, s = sub ++ post.
Proof.
  revert s; induction sub as [|c sub IH]; intros s H.
  - exists s; reflexivity.
  - destruct s as [|d s]; simpl in H; [discriminate|].
    destruct (Ascii.ascii_dec c d) as [->|_]; [|discriminate].
    destruct (IH _ H) as [post ->]. exists post; reflexivity.
Qed.

Lemma contains_unfold (sub s : string) :
  contains sub s =
  String.prefix sub s ||
  match s with
  | EmptyString => false
  | String _ s' => contains sub s'
  end.
Proof. destruct s; reflexivity. Qed.

Lemma contains_app (pre sub post : string) :
  contains sub (pre ++ sub ++ post) = true.
Proof.
  induction pre as [|c pre IH]; rewrite contains_unfold.
  - simpl. now rewrite prefix_app.
  - simpl. rewrite IH. apply orb_true_r.
Qed.

Lemma contains_infix (pre post sub s : string) :
  s = pre ++ sub ++ post -> contains sub s = true.
Proof. intros ->. apply contains_app. Qed.

Lemma app_string_assoc (a b c : string) : (a ++ b) ++ c = a ++ b ++ c.
Proof. induction a as [|x a IH]; simpl; [reflexivity | now rewrite IH]. Qed.

Lemma app_string_nil (a : string) : a ++ "" = a.
Proof. induction a as [|x a IH]; simpl; [reflexivity | now rewrite IH]. Qed.

Lemma contains_split (sub s : string) :
  contains sub s = true -> exists pre post, s = pre ++ sub ++ post.
Proof.
  induction s as [|c s IH]; rewrite contains_unfold; intros H;
    apply orb_true_iff in H; destruct H as [H|H].
  - destruct (prefix_split _ _ H) as [post E]. exists "", post; exact E.
  - discriminate.
  - destruct (prefix_split _ _ H) as [post E]. exists "", post; exact E.
  - destruct (IH H) as (pre & post & ->). exists (String c pre), post; reflexivity.
Qed.

Lemma contains_spec (sub s : string) :
  contains sub s = true <-> exists pre post, s = pre ++ sub ++ post.
Proof.
  split; [apply contains_split|].
  intros (pre & post & ->). apply contains_app.
Qed.

Section RandomUrl.

Variables Resource Server Rng : Type.
Variable uuid4 : Rng -> string * Rng.
Variable query : string -> Server -> Result (ProtocolObject Resource) * Server.

Local Abbreviation check := (check_random_url uuid4 query).
Local Abbreviation url := (random_url uuid4).
Local Abbreviation asked := (answer uuid4 query).

(** One run of the check, by the answer of the client. *)
Lemma check_random_url_run (w : World Server Rng) :
  check w =
  (Ok match asked w with
      | Raise (SCIMClientError _ response) =>
          Single (mkCheckResult ERROR (Some "check_random_url")
                    (Some (url w ++ " did not return an Error object"))
                    (Some (DataBytes (content response))))
      | Raise exc =>
          Single (mkCheckResult ERROR (Some "check_random_url")
                    (Some (str_exc exc)) None)
      | Ok (ResourceObject r) =>
          Single (mkCheckResult ERROR (Some "check_random_url")
                    (Some (url w ++ " did not return an Error object"))
                    (Some (DataObject (ResourceObject r))))
      | Ok (ErrorObject e) =>
          if status_ne_404 e then
            Single (mkCheckResult ERROR (Some "check_random_url")
                      (Some (url w
                             ++ " did return an object, but the status code is "
                             ++ str_opt_int (err_status e)))
                      (Some (DataObject (ErrorObject e))))
          else
            Pair (mkCheckResult SUCCESS (Some "check_random_url")
                    (Some (url w ++ " correctly returned a 404 error")) None)
              (ErrorObject e)
      end,
   mkWorld (snd (query (url w) (server w))) (snd (uuid4 (rng w)))).
Proof.
  unfold check_random_url, decorate_result, check_random_url_body, bind,
    attempt, str_uuid4, scim_query, answer, random_url.
  destruct (uuid4 (rng w)) as [u g]; simpl.
  destruct (query (String "/" u) (server w)) as [[[e|r]|[m|m resp|m|c m]] s];
    simpl; try reflexivity.
  destruct (status_ne_404 e); reflexivity.
Qed.

Lemma status_ne_404_false (e : Error) :
  status_ne_404 e = false <-> err_status e = Some 404%Z.
Proof.
  unfold status_ne_404. destruct (err_status e) as [z|].
  - rewrite negb_false_iff, Z.eqb_eq. split; congruence.
  - split; discriminate.
Qed.

(** C2: [check_random_url] hands back a result with status SUCCESS if and
    only if the query of the random URL returns, without raising, an [Error]
    object whose status is exactly 404. *)
Theorem check_random_url_success_iff (w : World Server Rng) :
  (exists x w', check w = (Ok x, w') /\ status (result_of x) = SUCCESS) <->
  (exists e, asked w = Ok (ErrorObject e) /\ err_status e = Some 404%Z).
Proof.
  rewrite check_random_url_run. split.
  - intros (x & w' & H & Hs). injection H as <- _.
    destruct (asked w) as [[e|r]|[m|m resp|m|c m]]; simpl in Hs;
      try discriminate.
    destruct (status_ne_404 e) eqn:E; simpl in Hs; [discriminate|].
    exists e. split; [reflexivity | now apply status_ne_404_false].
  - intros (e & -> & He). apply status_ne_404_false in He. rewrite He.
    eexists _, _. split; reflexivity.
Qed.

(** C3, amended: when the query returns a parsed object other than a 404
    [Error], the result is an ERROR with that object as data; its reason says
    "did return an object" when the object is an [Error], and "did not return
    an Error object" when it is not. *)
Theorem check_random_url_returned_object (w : World Server Rng)
    (o : ProtocolObject Resource) :
  asked w = Ok o ->
  (forall e, o = ErrorObject e -> err_status e <> Some 404%Z) ->
  exists r w' s,
    check w = (Ok (Single r), w') /\
    status r = ERROR /\
    reason r = Some s /\
    data r = Some (DataObject o) /\
    match o with
    | ErrorObject e =>
        s = url w ++ " did return an object, but the status code is "
              ++ str_opt_int (err_status e) /\
        contains "did return an object" s = true
    | ResourceObject _ =>
        s = url w ++ " did not return an Error object" /\
        contains "did not return an Error object" s = true
    end.
Proof.
  intros Ha Hne. rewrite check_random_url_run, Ha.
  destruct o as [e|r].
  - destruct (status_ne_404 e) eqn:E.
    + eexists _, _, _. repeat split.
      apply (contains_infix (url w ++ " ")
               (", but the status code is " ++ str_opt_int (err_status e))).
      now rewrite app_string_assoc.
    + apply status_ne_404_false in E. now elim (Hne e).
  - eexists _, _, _. repeat split.
    apply (contains_infix (url w ++ " ") "").
    now rewrite app_string_assoc.
Qed.

(** C5: when the query raises a transport error, the [except HTTPError]
    clause of the check itself hands back a bare ERROR result whose reason is
    the stringified error, with no data attached and no title yet; the
    decorated check hands back that result. *)
Theorem check_random_url_transport_error (w : World Server Rng) (msg : string) :
  asked w = Raise (HTTPError msg) ->
  (exists r w',
     check_random_url_body uuid4 query w = (Ok (Single r), w') /\
     status r = ERROR /\
     title r = None /\
     reason r = Some (str_exc (HTTPError msg)) /\
     data r = None) /\
  (exists r w',
     check w = (Ok (Single r), w') /\
     status r = ERROR /\
     reason r = Some (str_exc (HTTPError msg)) /\
     data r = None).
Proof.
  intros Ha. split.
  - unfold check_random_url_body, bind, attempt, str_uuid4, scim_query,
      answer, random_url in *.
    destruct (uuid4 (rng w)) as [u g]; simpl in *.
    destruct (query (String "/" u) (server w)) as [o s]; simpl in *.
    subst o. eexists _, _. repeat split.
  - rewrite check_random_url_run, Ha. eexists _, _. repeat split.
Qed.

(** C6: when the query raises a protocol client error (the response could not
    be read as a protocol object), the result is an ERROR whose reason says
    that the URL did not return an Error object and whose data is the raw
    content of the response. *)
Theorem check_random_url_parse_error (w : World Server Rng) (msg : string)
    (response : Response) :
  asked w = Raise (SCIMClientError msg response) ->
  exists r w',
    check w = (Ok (Single r), w') /\
    status r = ERROR /\
    reason r = Some (url w ++ " did not return an Error object") /\
    data r = Some (DataBytes (content response)).
Proof.
  intros Ha. rewrite check_random_url_run, Ha.
  eexists _, _. repeat split.
Qed.

(** C7: when the query returns an [Error] whose status is not 404, the result
    is an ERROR, its reason contains the status, and its data is the [Error]
    itself. *)
Theorem check_random_url_wrong_status (w : World Server Rng) (e : Error) :
  asked w = Ok (ErrorObject e) ->
  err_status e <> Some 404%Z ->
  exists r w' s,
    check w = (Ok (Single r), w') /\
    status r = ERROR /\
    reason r = Some s /\
    s = url w ++ " did return an object, but the status code is "
          ++ str_opt_int (err_status e) /\
    contains (str_opt_int (err_status e)) s = true /\
    data r = Some (DataObject (ErrorObject e)).
Proof.
  intros Ha Hne. rewrite check_random_url_run, Ha.
  destruct (status_ne_404 e) eqn:E.
  - eexists _, _, _. repeat split.
    apply (contains_infix
             (url w ++ " did return an object, but the status code is ") "").
    now rewrite app_string_assoc, app_string_nil.
  - apply status_ne_404_false in E. contradiction.
Qed.

(** C10, amended: every result of [check_random_url] has its reason set; the
    reason starts with the random URL, and so is not empty, whenever the query
    returns or raises a protocol client error; when the query raises a
    transport error the reason is the message of that error, whatever it
    is. *)
Theorem check_random_url_reason (w : World Server Rng) :
  exists x w' s,
    check w = (Ok x, w') /\
    reason (result_of x) = Some s /\
    ((forall m : string, asked w <> Raise (HTTPError m)) ->
     (forall m : string, asked w <> Raise (TypeError m)) ->
     (forall c m : string, asked w <> Raise (OtherError c m)) ->
     String.prefix (url w) s = true /\ s <> "") /\
    (forall m : string, asked w = Raise (HTTPError m) -> s = m).
Proof.
  rewrite check_random_url_run.
  assert (Hurl : forall t, String.prefix (url w) (url w ++ t) = true /\
                           url w ++ t <> "").
  { intros t. split; [apply prefix_app | unfold random_url; discriminate]. }
  destruct (asked w) as [[e|r]|[m|m resp|m|c m]] eqn:Ha.
  1: destruct (status_ne_404 e).
  all: eexists _, _, _; split; [reflexivity|]; split; [reflexivity|].
  all: split; [intros H1 H2 H3 | intros m' H; simpl; congruence].
  all: try apply Hurl.
  - now elim (H1 m).
  - now elim (H2 m).
  - now elim (H3 c m).
Qed.

End RandomUrl.

Section Wrapper.

Variables Resource Server Rng P : Type.

(** C1: whatever the check function does, the decorated check returns and does
    not raise, and what it returns carries a title; when the check function
    raises, the decorated check returns a single ERROR result that is well
    formed and whose reason is the description of the failure. *)
Theorem decorate_result_never_raises (name : string)
    (func : M Server Rng (Returned Resource P)) (w : World Server Rng) :
  (exists x w',
     decorate_result name func w = (Ok x, w') /\
     title (result_of x) <> None) /\
  (forall e w',
     func w = (Raise e, w') ->
     exists r,
       decorate_result name func w = (Ok (Single r), w') /\
       status r = ERROR /\
       reason r = Some (str_exc e) /\
       well_formed r).
Proof.
  unfold decorate_result, well_formed. split.
  - destruct (func w) as [[[r|r p]|[m|m resp|m|c m]] w1]; eexists _, _;
      (split; [reflexivity|]); simpl; unfold with_title;
      try destruct (title r) eqn:T; simpl; congruence.
  - intros e w' ->. destruct e; eexists; repeat split; simpl; congruence.
Qed.

End Wrapper.


Section Orchestrator.

Variables Resource Server Rng : Type.
Variable uuid4 : Rng -> string * Rng.
Variable query : string -> Server -> Result (ProtocolObject Resource) * Server.
Variables ServiceProviderConfig Schemas ResourceType : Type.
Variable check_service_provider_config_endpoint
  : M Server Rng (Returned Resource ServiceProviderConfig).
Variable check_schemas_endpoint : M Server Rng (Returned Resource Schemas).
Variable check_resource_types_endpoint
  : M Server Rng (Returned Resource (option (list ResourceType))).
Variable check_resource_type
  : ResourceType -> ServiceProviderConfig ->
    M Server Rng (list (Entry Resource)).

Local Abbreviation config_check := check_service_provider_config_endpoint.
Local Abbreviation schemas_check := check_schemas_endpoint.
Local Abbreviation types_check := check_resource_types_endpoint.
Local Abbreviation random_check := (check_random_url uuid4 query).
Local Abbreviation server_check :=
  (check_server uuid4 query check_service_provider_config_endpoint
     check_schemas_endpoint check_resource_types_endpoint check_resource_type).
Local Abbreviation runs := (resource_runs check_resource_type).

(** The loop extends [results] by what each call returned, in order. *)
Lemma resource_checks_spec (resource_types : list ResourceType)
    (config : ServiceProviderConfig) :
  forall (results report : list (Entry Resource)) (w w' : World Server Rng),
    resource_checks check_resource_type resource_types config results w
    = (Ok report, w') <->
    exists rss,
      runs config resource_types w rss w' /\
      report = (results ++ concat rss)%list.
Proof.
  induction resource_types as [|rt rest IH]; intros results report w w'; simpl.
  - unfold ret. split.
    + intros [= <- <-]. exists []. split; [constructor|].
      simpl. now rewrite app_nil_r.
    + intros (rss & Hr & ->). inversion Hr; subst.
      simpl. now rewrite app_nil_r.
  - unfold bind. split.
    + destruct (check_resource_type rt config w) as [[rs|e] w1] eqn:E;
        [|discriminate].
      intros H. apply IH in H. destruct H as (rss & Hr & ->).
      exists (rs :: rss). split; [econstructor; eassumption|].
      simpl. now rewrite app_assoc.
    + intros (rss & Hr & ->). inversion Hr as [|? ? ? rs w1 rss' ? E Hr']; subst.
      rewrite E. apply IH. exists rss'. split; [assumption|].
      simpl. now rewrite app_assoc.
Qed.

Lemma resource_runs_length (config : ServiceProviderConfig)
    (resource_types : list ResourceType) (w w' : World Server Rng)
    (rss : list (list (Entry Resource))) :
  runs config resource_types w rss w' -> length rss = length resource_types.
Proof. induction 1; simpl; congruence. Qed.

(** [check_server] returns a report exactly when every step ran without
    raising, and the report lists the results in the order of the steps. *)
Lemma check_server_spec (w w' : World Server Rng)
    (report : list (Entry Resource)) :
  server_check w = (Ok report, w') <->
  exists r1 config w1 r2 schemas w2 r3 resource_types w3 r4 w4 rss,
    config_check w = (Ok (Pair r1 config), w1) /\
    schemas_check w1 = (Ok (Pair r2 schemas), w2) /\
    types_check w2 = (Ok (Pair r3 (Some resource_types)), w3) /\
    random_check w3 = (Ok r4, w4) /\
    runs config resource_types w4 rss w' /\
    report = ([Single r1; Single r2; Single r3; r4] ++ concat rss)%list.
Proof.
  unfold check_server, bind. split.
  - destruct (config_check w) as [[[?|r1 config]|?] w1] eqn:E1; simpl;
      try discriminate.
    destruct (schemas_check w1) as [[[?|r2 schemas]|?] w2] eqn:E2; simpl;
      try discriminate.
    destruct (types_check w2) as [[[?|r3 [resource_types|]]|?] w3] eqn:E3;
      simpl; try discriminate.
    all: destruct (random_check w3) as [[r4|?] w4] eqn:E4; simpl;
      try discriminate.
    intros H. apply resource_checks_spec in H. destruct H as (rss & Hr & ->).
    exists r1, config, w1, r2, schemas, w2, r3, resource_types, w3, r4, w4, rss.
    do 4 (split; [assumption || reflexivity|]).
    split; [assumption | reflexivity].
  - intros (r1 & config & w1 & r2 & schemas & w2 & r3 & resource_types & w3
            & r4 & w4 & rss & E1 & E2 & E3 & E4 & Hr & ->).
    rewrite E1; simpl. rewrite E2; simpl. rewrite E3; simpl. rewrite E4; simpl.
    apply resource_checks_spec. exists rss. split; [assumption|reflexivity].
Qed.

(** C8: the report that [check_server] returns is, in this order, the service
    provider configuration result, the schemas result, the resource types
    result, the random URL result, and then what [check_resource_type]
    returned for each discovered resource type, in the order of discovery,
    whatever the status of any of them; there is such a report exactly when
    every step handed back its value without raising. *)
Theorem check_server_report_order (w w' : World Server Rng)
    (report : list (Entry Resource)) :
  server_check w = (Ok report, w') <->
  exists r1 config w1 r2 schemas w2 r3 resource_types w3 r4 w4 rss,
    config_check w = (Ok (Pair r1 config), w1) /\
    schemas_check w1 = (Ok (Pair r2 schemas), w2) /\
    types_check w2 = (Ok (Pair r3 (Some resource_types)), w3) /\
    random_check w3 = (Ok r4, w4) /\
    runs config resource_types w4 rss w' /\
    length rss = length resource_types /\
    report = ([Single r1; Single r2; Single r3; r4] ++ concat rss)%list /\
    nth_error report 0 = Some (Single r1) /\
    nth_error report 1 = Some (Single r2) /\
    nth_error report 2 = Some (Single r3) /\
    nth_error report 3 = Some r4 /\
    skipn 4 report = concat rss.
Proof.
  split.
  - intros H. apply check_server_spec in H.
    destruct H as (r1 & config & w1 & r2 & schemas & w2 & r3 & resource_types
                   & w3 & r4 & w4 & rss & E1 & E2 & E3 & E4 & Hr & ->).
    exists r1, config, w1, r2, schemas, w2, r3, resource_types, w3, r4, w4, rss.
    repeat (split; [assumption || reflexivity || idtac|]); try reflexivity.
    eapply resource_runs_length; eassumption.
  - intros (r1 & config & w1 & r2 & schemas & w2 & r3 & resource_types & w3
            & r4 & w4 & rss & E1 & E2 & E3 & E4 & Hr & _ & E & _).
    apply check_server_spec.
    exists r1, config, w1, r2, schemas, w2, r3, resource_types, w3, r4, w4, rss.
    do 4 (split; [assumption|]). split; assumption.
Qed.

(** When [check_resource_type] does not raise on the resource types at hand,
    the loop runs to its end. *)
Lemma resource_runs_total (config : ServiceProviderConfig)
    (resource_types : list ResourceType) :
  (forall rt v, In rt resource_types ->
     exists rs v', check_resource_type rt config v = (Ok rs, v')) ->
  forall w, exists rss w', runs config resource_types w rss w'.
Proof.
  induction resource_types as [|rt rest IH]; intros Htotal w.
  - exists [], w. constructor.
  - destruct (Htotal rt w (or_introl eq_refl)) as (rs & w1 & E).
    destruct (IH (fun rt' v H => Htotal rt' v (or_intror H)) w1)
      as (rss & w' & Hr).
    exists (rs :: rss), w'. econstructor; eassumption.
Qed.

Lemma resource_runs_Forall (S : Entry Resource -> Prop)
    (config : ServiceProviderConfig) (resource_types : list ResourceType)
    (w w' : World Server Rng) (rss : list (list (Entry Resource))) :
  (forall rt v rs v', In rt resource_types ->
     check_resource_type rt config v = (Ok rs, v') -> Forall S rs) ->
  runs config resource_types w rss w' -> Forall S (concat rss).
Proof.
  intros HS Hr. induction Hr as [|rt rest w rs w1 rss w2 E Hr IH]; simpl.
  - constructor.
  - apply Forall_app. split.
    + eapply HS; [left; reflexivity | eassumption].
    + apply IH. intros rt' v rs' v' Hin. apply HS. now right.
Qed.

Lemma Forall_concat_iff {A} (S : A -> Prop) (ls : list (list A)) :
  Forall S (concat ls) <-> Forall (Forall S) ls.
Proof.
  induction ls as [|l ls IH]; simpl.
  - split; constructor.
  - rewrite Forall_app, IH. split.
    + intros [H1 H2]. now constructor.
    + intros H. inversion H; subst. now split.
Qed.

(** C4, amended: when each discovery check hands back a tuple of a result and
    a payload, whatever the status of the result, the third payload being a
    list of resource types, and [check_resource_type] does not raise,
    [check_server] completes and returns a report of at least four entries
    that starts with the three discovery results and what the random URL
    check returned; what follows the fourth entry is what
    [check_resource_type] returned, called for each discovered resource type
    with the configuration at hand, and it is all SKIPPED exactly when every
    one of these answers is, as it is when that is how [check_resource_type]
    answers for this configuration. *)
Theorem check_server_completes (w w1 w2 w3 : World Server Rng)
    (r1 r2 r3 : CheckResult Resource) (config : ServiceProviderConfig)
    (schemas : Schemas) (resource_types : list ResourceType) :
  config_check w = (Ok (Pair r1 config), w1) ->
  schemas_check w1 = (Ok (Pair r2 schemas), w2) ->
  types_check w2 = (Ok (Pair r3 (Some resource_types)), w3) ->
  (forall rt v, In rt resource_types ->
     exists rs v', check_resource_type rt config v = (Ok rs, v')) ->
  exists report w' rss,
    server_check w = (Ok report, w') /\
    4 <= length report /\
    firstn 3 report = [Single r1; Single r2; Single r3] /\
    skipn 4 report = concat rss /\
    runs config resource_types (snd (random_check w3)) rss w' /\
    ((forall rt v rs v', In rt resource_types ->
        check_resource_type rt config v = (Ok rs, v') -> Forall skipped rs) ->
     Forall skipped (skipn 4 report)) /\
    (exists r4,
       fst (random_check w3) = Ok r4 /\
       nth_error report 3 = Some r4 /\
       report = ([Single r1; Single r2; Single r3; r4] ++ concat rss)%list) /\
    (Forall skipped (skipn 4 report) <-> Forall (Forall skipped) rss).
Proof.
  intros E1 E2 E3 Htotal.
  pose proof (check_random_url_run _ _ _ uuid4 query w3) as E4.
  remember (snd (random_check w3)) as w4 eqn:Ew4.
  rewrite E4 in Ew4. simpl in Ew4. rewrite <- Ew4 in E4.
  match type of E4 with _ = (Ok ?x, _) => set (r4 := x) in E4 end.
  destruct (resource_runs_total config resource_types Htotal w4)
    as (rss & w' & Hr).
  exists ([Single r1; Single r2; Single r3; r4] ++ concat rss)%list, w', rss.
  split; [|split; [simpl; lia|]].
  - apply check_server_spec.
    exists r1, config, w1, r2, schemas, w2, r3, resource_types, w3, r4, w4, rss.
    do 4 (split; [assumption|]). split; [assumption | reflexivity].
  - do 3 (split; [reflexivity || assumption|]). split; [|split].
    + intros HS. simpl. eapply resource_runs_Forall; eassumption.
    + exists r4. rewrite E4. repeat split.
    + simpl. apply Forall_concat_iff.
Qed.

End Orchestrator.

Section Repeatability.

Variables Resource Server Rng : Type.
Variable uuid4 : Rng -> string * Rng.
Variable query : string -> Server -> Result (ProtocolObject Resource) * Server.
Variables ServiceProviderConfig Schemas ResourceType : Type.
Variable check_service_provider_config_endpoint
  : M Server Rng (Returned Resource ServiceProviderConfig).
Variable check_schemas_endpoint : M Server Rng (Returned Resource Schemas).
Variable check_resource_types_endpoint
  : M Server Rng (Returned Resource (option (list ResourceType))).
Variable check_resource_type
  : ResourceType -> ServiceProviderConfig ->
    M Server Rng (list (Entry Resource)).

Local Abbreviation random_check := (check_random_url uuid4 query).
Local Abbreviation server_check :=
  (check_server uuid4 query check_service_provider_config_endpoint
     check_schemas_endpoint check_resource_types_endpoint check_resource_type).

Lemma repeatable_bind {A B} (R : A -> A -> Prop) (R' : B -> B -> Prop)
    (m m' : M Server Rng A) (k k' : A -> M Server Rng B) :
  repeatable R m m' ->
  (forall a b, R a b -> repeatable R' (k a) (k' b)) ->
  repeatable R' (bind m k) (bind m' k').
Proof.
  intros Hm Hk v v' Hs. destruct (Hm v v' Hs) as (S1 & S2 & Ag).
  unfold bind.
  destruct (m v) as [[a|e] v1], (m' v') as [[b|e'] v1']; simpl in *;
    try contradiction.
  - assert (Hs1 : server v1 = server v1') by congruence.
    destruct (Hk a b Ag v1 v1' Hs1) as (T1 & T2 & Ag').
    repeat split; [congruence | congruence | assumption].
  - repeat split; assumption.
Qed.

Lemma repeatable_ret {A} (R : A -> A -> Prop) (a b : A) :
  R a b -> repeatable R (@ret Server Rng A a) (ret b).
Proof. intros H v v' _. repeat split. exact H. Qed.

Lemma repeatable_unpack {P} (x y : Returned Resource P) :
  alike x y -> repeatable paired (@unpack Resource Server Rng P x) (unpack y).
Proof.
  intros (Hst & Ht & Hp) v v' _.
  destruct x, y; simpl in *; try contradiction; repeat split; assumption.
Qed.

Lemma repeatable_iterate {A} (xs : option (list A)) :
  repeatable eq (@iterate Server Rng A xs) (iterate xs).
Proof. intros v v' _. destruct xs; repeat split. Qed.

Lemma same_summaries_app (a b a' b' : list (Entry Resource)) :
  same_summaries a a' -> same_summaries b b' ->
  same_summaries (a ++ b) (a' ++ b').
Proof. unfold same_summaries. intros Ha Hb. now rewrite !map_app, Ha, Hb. Qed.

Section Stateless.

(** The server is stateless: a query leaves it as it is. *)
Hypothesis stateless : forall url s, snd (query url s) = s.

(** It answers every random URL, or none, with a 404 [Error]. *)
Hypothesis uniform :
  forall g g' s,
    found_404 (fst (query ("/" ++ fst (uuid4 g)) s))
    = found_404 (fst (query ("/" ++ fst (uuid4 g')) s)).

(** The checks of the other modules are repeatable. *)
Hypothesis config_repeatable :
  repeatable alike check_service_provider_config_endpoint
    check_service_provider_config_endpoint.
Hypothesis schemas_repeatable :
  repeatable alike check_schemas_endpoint check_schemas_endpoint.
Hypothesis types_repeatable :
  repeatable alike check_resource_types_endpoint check_resource_types_endpoint.
Hypothesis resource_repeatable :
  forall rt config,
    repeatable same_summaries (check_resource_type rt config)
      (check_resource_type rt config).

Lemma check_random_url_repeatable :
  repeatable same_summary random_check random_check.
Proof.
  intros v v' Hs. rewrite !check_random_url_run. simpl.
  rewrite !stateless. repeat split.
  pose proof (uniform (rng v) (rng v') (server v)) as U.
  unfold same_summary, summary, answer, random_url.
  rewrite <- Hs.
  destruct (fst (query ("/" ++ fst (uuid4 (rng v))) (server v)))
    as [[e|r]|[m|m resp|m|c m]];
  destruct (fst (query ("/" ++ fst (uuid4 (rng v'))) (server v)))
    as [[e'|r']|[m'|m' resp'|m'|c' m']];
  simpl in U;
  try destruct (status_ne_404 e); try destruct (status_ne_404 e');
  simpl in U; try discriminate; reflexivity.
Qed.

Lemma resource_checks_repeatable (resource_types : list ResourceType)
    (config : ServiceProviderConfig) :
  forall results results' : list (Entry Resource),
    same_summaries results results' ->
    repeatable same_summaries
      (resource_checks check_resource_type resource_types config results)
      (resource_checks check_resource_type resource_types config results').
Proof.
  induction resource_types as [|rt rest IH]; intros results results' H; simpl.
  - now apply repeatable_ret.
  - eapply repeatable_bind; [apply resource_repeatable|].
    intros new new' Hnew. apply IH. now apply same_summaries_app.
Qed.

Lemma check_server_repeatable :
  repeatable same_summaries server_check server_check.
Proof.
  unfold check_server.
  eapply repeatable_bind; [apply config_repeatable|]. intros x1 y1 H1.
  eapply repeatable_bind; [apply repeatable_unpack, H1|].
  intros [r1 c1] [r1' c1'] (S1 & T1 & C1). simpl in S1, T1, C1. subst c1'.
  eapply repeatable_bind; [apply schemas_repeatable|]. intros x2 y2 H2.
  eapply repeatable_bind; [apply repeatable_unpack, H2|].
  intros [r2 c2] [r2' c2'] (S2 & T2 & C2). simpl in S2, T2, C2. subst c2'.
  eapply repeatable_bind; [apply types_repeatable|]. intros x3 y3 H3.
  eapply repeatable_bind; [apply repeatable_unpack, H3|].
  intros [r3 c3] [r3' c3'] (S3 & T3 & C3). simpl in S3, T3, C3. subst c3'.
  eapply repeatable_bind; [apply check_random_url_repeatable|].
  intros r4 r4' H4.
  eapply repeatable_bind; [apply repeatable_iterate|]. intros items ? <-.
  apply resource_checks_repeatable.
  unfold same_summaries, same_summary, summary in *. simpl. congruence.
Qed.

(** C9, amended: against a stateless server that answers every random URL, or
    none, with a 404 [Error], and with discovery and resource checks that are
    themselves repeatable, a second run of [check_server] after a first one
    yields a report with the same sequence of statuses and titles (or both
    runs are interrupted by an exception). *)
Theorem check_server_twice (w : World Server Rng) :
  reads_the_same_twice uuid4 query check_service_provider_config_endpoint
    check_schemas_endpoint check_resource_types_endpoint check_resource_type w.
Proof.
  unfold reads_the_same_twice.
  destruct (check_server_repeatable w w eq_refl) as (S1 & _ & _).
  destruct (check_server_repeatable w (snd (server_check w)) (eq_sym S1))
    as (_ & _ & H).
  exact H.
Qed.

End Stateless.

End Repeatability.

(** * The checks at work on the mock servers *)

Section OnMocks.

Import Mock.

Local Abbreviation run_random := (check_random_url uuid4).
Local Abbreviation run_server := (check_server uuid4).

(** Any exception of a check comes out of the wrapper as an ERROR result. *)
Lemma decorate_result_never_raises_witness :
  exists r : CheckResult Resource,
    decorate_result (P := unit) "check_division"
      (raise (OtherError "ZeroDivisionError" "division by zero")) w0
    = (Ok (Single r), w0) /\
    status r = ERROR /\
    reason r = Some "division by zero" /\
    well_formed r.
Proof.
  exact (proj2 (decorate_result_never_raises Resource Server Rng unit
                  "check_division"
                  (raise (OtherError "ZeroDivisionError" "division by zero"))
                  w0)
           _ _ eq_refl).
Defined.

(** A server that answers 404 with an [Error] passes the check. *)
Lemma check_random_url_success_iff_witness :
  exists x w',
    run_random conformant w0 = (Ok x, w') /\ status (result_of x) = SUCCESS.
Proof.
  apply (proj2 (check_random_url_success_iff _ _ _ uuid4 conformant w0)).
  exists (mkError (Some 404%Z) None (Some "Resource not found")).
  split; reflexivity.
Defined.

(** A [User] served at the random URL is reported with the wording
    "did not return an Error object". *)
Lemma check_random_url_returned_object_witness :
  exists r w' s,
    run_random permissive w0 = (Ok (Single r), w') /\
    status r = ERROR /\
    reason r = Some s /\
    data r = Some (DataObject user) /\
    s = random_url uuid4 w0 ++ " did not return an Error object" /\
    contains "did not return an Error object" s = true.
Proof.
  apply (check_random_url_returned_object _ _ _ uuid4 permissive w0 user).
  - reflexivity.
  - intros e H. discriminate H.
Defined.

(** That server's answer is not reported with the words "did return an
    object". *)
Lemma returned_object_not_reported :
  ~ reports_returned_object uuid4 permissive w0.
Proof.
  intros H. destruct (H user eq_refl) as (x & w' & s & E & _ & R & C & _).
  vm_compute in E. injection E as <- <-.
  simpl in R. injection R as <-.
  vm_compute in C. discriminate C.
Qed.

Lemma check_random_url_transport_error_witness :
  (exists r w',
     check_random_url_body uuid4 unreachable w0 = (Ok (Single r), w') /\
     status r = ERROR /\
     title r = None /\
     reason r = Some "All connection attempts failed" /\
     data r = None) /\
  (exists r w',
     run_random unreachable w0 = (Ok (Single r), w') /\
     status r = ERROR /\
     reason r = Some "All connection attempts failed" /\
     data r = None).
Proof.
  apply (check_random_url_transport_error _ _ _ uuid4 unreachable w0
           "All connection attempts failed").
  reflexivity.
Defined.

Lemma check_random_url_parse_error_witness :
  exists r w',
    run_random garbled w0 = (Ok (Single r), w') /\
    status r = ERROR /\
    reason r
    = Some (random_url uuid4 w0 ++ " did not return an Error object") /\
    data r = Some (DataBytes (content html)).
Proof.
  apply (check_random_url_parse_error _ _ _ uuid4 garbled w0
           "Unexpected response content type" html).
  reflexivity.
Defined.

Lemma check_random_url_wrong_status_witness :
  exists r w' s,
    run_random guarded w0 = (Ok (Single r), w') /\
    status r = ERROR /\
    reason r = Some s /\
    s = random_url uuid4 w0
          ++ " did return an object, but the status code is " ++ "403" /\
    contains "403" s = true /\
    data r = Some (DataObject forbidden).
Proof.
  apply (check_random_url_wrong_status _ _ _ uuid4 guarded w0
           (mkError (Some 403%Z) None (Some "Forbidden"))).
  - reflexivity.
  - simpl. intros H. discriminate H.
Defined.

(** On a conformant server the reason is not empty. *)
Lemma check_random_url_reason_witness :
  exists x w' s,
    run_random conformant w0 = (Ok x, w') /\
    reason (result_of x) = Some s /\
    s <> "".
Proof.
  destruct (check_random_url_reason _ _ _ uuid4 conformant w0)
    as (x & w' & s & E & R & H & _).
  exists x, w', s. split; [exact E|]. split; [exact R|].
  apply H; intros; discriminate.
Defined.

(** A timeout carries an empty message, and so does the result. *)
Lemma reason_empty_on_timeout : ~ reason_never_empty uuid4 silent w0.
Proof.
  intros H. destruct (H _ _ eq_refl) as (s & R & Hs).
  simpl in R. injection R as <-. now elim Hs.
Qed.

(** A full run against the conformant server: three discovery results, the
    random URL result, one result for each of the two resource types. *)
Lemma check_server_report_order_witness :
  exists report r1 r2 r3 r4 rss,
    fst (run_server conformant config_endpoint schemas_endpoint
           resource_types_endpoint lifecycle w0) = Ok report /\
    report = ([Single r1; Single r2; Single r3; r4] ++ concat rss)%list /\
    fst (config_endpoint w0) = Ok (Pair r1 (Some "config")) /\
    nth_error report 3 = Some r4 /\
    length rss = 2.
Proof.
  destruct (proj1 (check_server_report_order _ _ _ uuid4 conformant _ _ _
                     config_endpoint schemas_endpoint resource_types_endpoint
                     lifecycle w0 _ _) eq_refl)
    as (r1 & config & w1 & r2 & schemas & w2 & r3 & resource_types & w3
        & r4 & w4 & rss & E1 & E2 & E3 & E4 & Hr & L & E & _ & _ & _ & N & _).
  eexists _, r1, r2, r3, r4, rss.
  split; [reflexivity|]. split; [exact E|]. split; [|split; [exact N|]].
  - rewrite E1. injection E1 as _ <- _. reflexivity.
  - injection E3 as _ <- _. exact L.
Defined.

(** The configuration check reports its failure in a tuple: the run goes on,
    and the resource checks, handed no configuration, answer SKIPPED. *)
Lemma check_server_completes_witness :
  exists report w' rss r4,
    run_server conformant config_reported schemas_endpoint
      resource_types_endpoint lifecycle w0 = (Ok report, w') /\
    4 <= length report /\
    fst (check_random_url uuid4 conformant w0) = Ok r4 /\
    nth_error report 3 = Some r4 /\
    skipn 4 report = concat rss /\
    Forall skipped (skipn 4 report).
Proof.
  destruct (check_server_completes _ _ _ uuid4 conformant _ _ _
              config_reported schemas_endpoint resource_types_endpoint
              lifecycle w0 w0 w0 w0 _ _ _ None _ ["User"; "Group"]
              eq_refl eq_refl eq_refl)
    as (report & w' & rss & E & L & _ & K & _ & S & (r4 & R4 & N4 & _) & _).
  - intros rt v _. eexists _, _. reflexivity.
  - exists report, w', rss, r4. repeat split; try assumption.
    apply S. intros rt v rs v' _ H. injection H as <- _.
    repeat constructor.
Defined.

(** The configuration endpoint cannot be reached: the wrapper hands back a
    bare ERROR result, unpacking it raises, and there is no report.  Nor is
    there one when the resource types check reports its failure in a tuple
    with no list to iterate over. *)
Lemma no_report_when_unreached :
  (discovery_fails config_unreached w0 /\
   run_server conformant config_unreached schemas_endpoint
     resource_types_endpoint lifecycle w0
   = (Raise (TypeError "cannot unpack non-iterable CheckResult object"), w0) /\
   ~ completes_skipping uuid4 conformant config_unreached schemas_endpoint
       resource_types_endpoint lifecycle w0) /\
  (fst (run_server conformant config_endpoint schemas_endpoint
          resource_types_reported lifecycle w0)
   = Raise (TypeError "'NoneType' object is not iterable") /\
   ~ completes_skipping uuid4 conformant config_endpoint schemas_endpoint
       resource_types_reported lifecycle w0).
Proof.
  split; split; [| split | |].
  - eexists _, _. split; reflexivity.
  - reflexivity.
  - intros (report & w' & E & _). discriminate E.
  - reflexivity.
  - intros (report & w' & E & _). discriminate E.
Qed.

(** Two runs against the conformant server read the same. *)
Lemma check_server_twice_witness :
  reads_the_same_twice uuid4 conformant config_endpoint schemas_endpoint
    resource_types_endpoint lifecycle w0.
Proof.
  apply (check_server_twice _ _ _ uuid4 conformant _ _ _ config_endpoint
           schemas_endpoint resource_types_endpoint lifecycle).
  - intros u s. reflexivity.
  - intros g g' s. reflexivity.
  - intros v v' _. repeat split.
  - intros v v' _. repeat split.
  - intros v v' _. repeat split.
  - intros rt config v v' _. repeat split.
Defined.

(** A stateless server that serves a [User] at one UUID path: the first run
    asks for another path and the check succeeds, the second run hits that
    path and the check fails. *)
Lemma runs_differ_on_selective_server :
  (forall u s, snd (selective u s) = s) /\
  ~ reads_the_same_twice uuid4 selective config_endpoint schemas_endpoint
      resource_types_endpoint lifecycle w0.
Proof.
  split.
  - intros u s. reflexivity.
  - unfold reads_the_same_twice. vm_compute. intros H. discriminate H.
Qed.

End OnMocks.

(** * Further properties of the checks *)

Section RandomUrlEffects.

Variables Resource Server Rng : Type.
Variable uuid4 : Rng -> string * Rng.
Variable query : string -> Server -> Result (ProtocolObject Resource) * Server.

Local Abbreviation check := (check_random_url uuid4 query).
Local Abbreviation body := (check_random_url_body uuid4 query).
Local Abbreviation url := (random_url uuid4).
Local Abbreviation asked := (answer uuid4 query).

(** X1: [check_random_url] hands back a tuple exactly on its SUCCESS branch,
    and then the second half of the tuple is the response, an [Error] of
    status 404, while the result carries no data; on every other branch it
    hands back a bare result of status ERROR.  The status is never SKIPPED. *)
Theorem check_random_url_shape (w : World Server Rng) :
  exists x w',
    check w = (Ok x, w') /\
    match x with
    | Pair r response =>
        status r = SUCCESS /\ data r = None /\
        asked w = Ok response /\ found_404 (Ok response) = true
    | Single r => status r = ERROR /\ found_404 (asked w) = false
    end.
Proof.
  rewrite check_random_url_run.
  destruct (asked w) as [[e|r]|[m|m resp|m|c m]] eqn:Ha.
  1: destruct (status_ne_404 e) eqn:E.
  all: eexists _, _; split; [reflexivity|]; simpl; rewrite ?E; repeat split.
Qed.

(** X2: whatever the answer and the branch taken, one run of
    [check_random_url] draws one UUID and sends one query, for the URL made
    of a slash and that UUID: the world it leaves is the server as that query
    left it and the generator as that draw left it. *)
Theorem check_random_url_footprint (w : World Server Rng) :
  snd (check w)
  = mkWorld (snd (query ("/" ++ fst (uuid4 (rng w))) (server w)))
      (snd (uuid4 (rng w))) /\
  snd (body w) = snd (check w).
Proof.
  split; [now rewrite check_random_url_run|].
  unfold check_random_url, decorate_result.
  destruct (body w) as [[[r|r p]|[m|m resp|m|c m]] w1]; reflexivity.
Qed.

(** X3: without the wrapper, the body of [check_random_url] raises exactly
    when the query raises an exception that is neither an [HTTPError] nor a
    [SCIMClientError], and it raises that very exception. *)
Theorem check_random_url_body_raises (w w' : World Server Rng) (e : Exc) :
  body w = (Raise e, w') <->
  asked w = Raise e /\ uncaught e = true /\
  w' = mkWorld (snd (query (url w) (server w))) (snd (uuid4 (rng w))).
Proof.
  unfold check_random_url_body, bind, attempt, str_uuid4, scim_query, answer,
    random_url, ret, raise.
  destruct (uuid4 (rng w)) as [u g]; simpl.
  destruct (query (String "/" u) (server w)) as [[[e0|r]|[m|m resp|m|c m]] s];
    simpl.
  1: destruct (status_ne_404 e0).
  all: split;
    [ intros H; try discriminate H; injection H as <- <-; repeat split
    | intros (H & U & ->); try discriminate H; injection H as <-;
      try discriminate U; reflexivity ].
Qed.

End RandomUrlEffects.

Section OrchestratorFailures.

Variables Resource Server Rng : Type.
Variable uuid4 : Rng -> string * Rng.
Variable query : string -> Server -> Result (ProtocolObject Resource) * Server.
Variables ServiceProviderConfig Schemas ResourceType : Type.
Variable check_service_provider_config_endpoint
  : M Server Rng (Returned Resource ServiceProviderConfig).
Variable check_schemas_endpoint : M Server Rng (Returned Resource Schemas).
Variable check_resource_types_endpoint
  : M Server Rng (Returned Resource (option (list ResourceType))).
Variable check_resource_type
  : ResourceType -> ServiceProviderConfig ->
    M Server Rng (list (Entry Resource)).

Local Abbreviation config_check := check_service_provider_config_endpoint.
Local Abbreviation schemas_check := check_schemas_endpoint.
Local Abbreviation types_check := check_resource_types_endpoint.
Local Abbreviation random_check := (check_random_url uuid4 query).
Local Abbreviation server_check :=
  (check_server uuid4 query check_service_provider_config_endpoint
     check_schemas_endpoint check_resource_types_endpoint check_resource_type).
Local Abbreviation loop := (resource_checks check_resource_type).
Local Abbreviation runs := (resource_runs check_resource_type).
Local Abbreviation unpack_error :=
  (TypeError "cannot unpack non-iterable CheckResult object").

Ltac step E := rewrite E; simpl.

(** The random URL check always hands back a value. *)
Lemma random_check_returns (w : World Server Rng) :
  exists r4, random_check w = (Ok r4, snd (random_check w)).
Proof. rewrite check_random_url_run. eexists. reflexivity. Qed.

(** X4: when the resource types check hands back an empty list, the report
    has exactly four entries, the three discovery results and the random URL
    result, and no resource check is run: the world is as the random URL
    check left it. *)
Theorem check_server_no_resource_types (w w1 w2 w3 : World Server Rng)
    (r1 r2 r3 : CheckResult Resource) (config : ServiceProviderConfig)
    (schemas : Schemas) :
  config_check w = (Ok (Pair r1 config), w1) ->
  schemas_check w1 = (Ok (Pair r2 schemas), w2) ->
  types_check w2 = (Ok (Pair r3 (Some [])), w3) ->
  exists r4,
    fst (random_check w3) = Ok r4 /\
    server_check w
    = (Ok [Single r1; Single r2; Single r3; r4], snd (random_check w3)).
Proof.
  intros E1 E2 E3. destruct (random_check_returns w3) as (r4 & E4).
  exists r4. split; [now rewrite E4|].
  unfold check_server, bind. step E1. step E2. step E3. step E4. reflexivity.
Qed.

(** X5: when the resource types check hands back [None] in its tuple, the
    random URL check is run all the same, and only then does the [for]
    statement raise a [TypeError]; the three discovery results and the random
    URL result are lost with it. *)
Theorem check_server_none_resource_types (w w1 w2 w3 : World Server Rng)
    (r1 r2 r3 : CheckResult Resource) (config : ServiceProviderConfig)
    (schemas : Schemas) :
  config_check w = (Ok (Pair r1 config), w1) ->
  schemas_check w1 = (Ok (Pair r2 schemas), w2) ->
  types_check w2 = (Ok (Pair r3 None), w3) ->
  server_check w
  = (Raise (TypeError "'NoneType' object is not iterable"),
     snd (random_check w3)).
Proof.
  intros E1 E2 E3. destruct (random_check_returns w3) as (r4 & E4).
  unfold check_server, bind. step E1. step E2. step E3. step E4. reflexivity.
Qed.

(** X6: a discovery check that hands back a bare [CheckResult] makes
    [check_server] raise a [TypeError] at the unpacking, and no later check is
    run: the world is as that discovery check left it. *)
Theorem check_server_bare_result (w : World Server Rng) :
  (forall r w1,
     config_check w = (Ok (Single r), w1) ->
     server_check w = (Raise unpack_error, w1)) /\
  (forall r1 config w1 r w2,
     config_check w = (Ok (Pair r1 config), w1) ->
     schemas_check w1 = (Ok (Single r), w2) ->
     server_check w = (Raise unpack_error, w2)) /\
  (forall r1 config w1 r2 schemas w2 r w3,
     config_check w = (Ok (Pair r1 config), w1) ->
     schemas_check w1 = (Ok (Pair r2 schemas), w2) ->
     types_check w2 = (Ok (Single r), w3) ->
     server_check w = (Raise unpack_error, w3)).
Proof.
  unfold check_server, bind. repeat split.
  - intros r w1 E1. step E1. reflexivity.
  - intros r1 config w1 r w2 E1 E2. step E1. step E2. reflexivity.
  - intros r1 config w1 r2 schemas w2 r w3 E1 E2 E3.
    step E1. step E2. step E3. reflexivity.
Qed.

(** X7: [check_server] has no [except] clause: an exception raised by a
    discovery check comes out of [check_server] as it is, and no later check
    is run. *)
Theorem check_server_propagates (w : World Server Rng) (e : Exc) :
  (forall w1,
     config_check w = (Raise e, w1) -> server_check w = (Raise e, w1)) /\
  (forall r1 config w1 w2,
     config_check w = (Ok (Pair r1 config), w1) ->
     schemas_check w1 = (Raise e, w2) ->
     server_check w = (Raise e, w2)) /\
  (forall r1 config w1 r2 schemas w2 w3,
     config_check w = (Ok (Pair r1 config), w1) ->
     schemas_check w1 = (Ok (Pair r2 schemas), w2) ->
     types_check w2 = (Raise e, w3) ->
     server_check w = (Raise e, w3)).
Proof.
  unfold check_server, bind. repeat split.
  - intros w1 E1. step E1. reflexivity.
  - intros r1 config w1 w2 E1 E2. step E1. step E2. reflexivity.
  - intros r1 config w1 r2 schemas w2 w3 E1 E2 E3.
    step E1. step E2. step E3. reflexivity.
Qed.

(** The loop raises exactly when some call of [check_resource_type] raises,
    the calls before it having returned. *)
Lemma resource_checks_raises (resource_types : list ResourceType)
    (config : ServiceProviderConfig) :
  forall (results : list (Entry Resource)) (w w' : World Server Rng) (e : Exc),
    loop resource_types config results w = (Raise e, w') <->
    exists before rt after rss w1,
      resource_types = (before ++ rt :: after)%list /\
      runs config before w rss w1 /\
      check_resource_type rt config w1 = (Raise e, w').
Proof.
  induction resource_types as [|rt rest IH]; intros results w w' e; simpl.
  - split; [discriminate|].
    intros (before & rt & after & rss & w1 & E & _).
    now destruct before.
  - unfold bind.
    destruct (check_resource_type rt config w) as [[rs|e0] w1] eqn:E.
    + rewrite IH. split.
      * intros (before & rt' & after & rss & w2 & -> & Hr & Hc).
        exists (rt :: before), rt', after, (rs :: rss), w2.
        repeat split; [econstructor; eassumption | assumption].
      * intros (before & rt' & after & rss & w2 & Hl & Hr & Hc).
        destruct before as [|b before]; simpl in Hl; injection Hl as <- ->.
        -- inversion Hr; subst. congruence.
        -- inversion Hr as [|? ? ? rs' w1' rss' ? E' Hr']; subst.
           rewrite E in E'. injection E' as <- <-.
           exists before, rt', after, rss', w2. repeat split; assumption.
    + split.
      * intros [= <- <-]. exists [], rt, rest, [], w.
        repeat split; [constructor | assumption].
      * intros (before & rt' & after & rss & w2 & Hl & Hr & Hc).
        destruct before as [|b before]; simpl in Hl; injection Hl as <- ->.
        -- inversion Hr; subst. congruence.
        -- inversion Hr; subst. congruence.
Qed.

(** X8: once the discovery checks have handed back their tuples, with a list
    of resource types, a run fails exactly when some call of
    [check_resource_type] raises while the calls for the resource types
    before it returned; the run then raises that exception, the resource
    types after it are not checked, and no report is handed back. *)
Theorem check_server_resource_failure (w w1 w2 w3 w' : World Server Rng)
    (r1 r2 r3 : CheckResult Resource) (config : ServiceProviderConfig)
    (schemas : Schemas) (resource_types : list ResourceType) (e : Exc) :
  config_check w = (Ok (Pair r1 config), w1) ->
  schemas_check w1 = (Ok (Pair r2 schemas), w2) ->
  types_check w2 = (Ok (Pair r3 (Some resource_types)), w3) ->
  (server_check w = (Raise e, w') <->
   exists before rt after rss w5,
     resource_types = (before ++ rt :: after)%list /\
     runs config before (snd (random_check w3)) rss w5 /\
     check_resource_type rt config w5 = (Raise e, w')).
Proof.
  intros E1 E2 E3. destruct (random_check_returns w3) as (r4 & E4).
  unfold check_server, bind. step E1. step E2. step E3. step E4.
  apply resource_checks_raises.
Qed.

(** X9: the loop over a list of resource types put together from two lists
    is the loop over the first followed by the loop over the second, the
    entries gathered so far being handed on. *)
Theorem resource_checks_app (first second : list ResourceType)
    (config : ServiceProviderConfig) :
  forall (results : list (Entry Resource)) (w : World Server Rng),
    loop (first ++ second)%list config results w
    = bind (loop first config results)
        (fun gathered => loop second config gathered) w.
Proof.
  induction first as [|rt rest IH]; intros results w; simpl.
  - reflexivity.
  - unfold bind.
    destruct (check_resource_type rt config w) as [[rs|e] w1];
      [|reflexivity].
    rewrite IH. reflexivity.
Qed.

End OrchestratorFailures.

Section SchemasUnused.

Variables Resource Server Rng : Type.
Variable uuid4 : Rng -> string * Rng.
Variable query : string -> Server -> Result (ProtocolObject Resource) * Server.
Variables ServiceProviderConfig Schemas Schemas' ResourceType : Type.
Variable check_service_provider_config_endpoint
  : M Server Rng (Returned Resource ServiceProviderConfig).
Variable check_schemas_endpoint : M Server Rng (Returned Resource Schemas).
Variable check_schemas_endpoint' : M Server Rng (Returned Resource Schemas').
Variable check_resource_types_endpoint
  : M Server Rng (Returned Resource (option (list ResourceType))).
Variable check_resource_type
  : ResourceType -> ServiceProviderConfig ->
    M Server Rng (list (Entry Resource)).

(** X10: the schemas that the schemas check hands back are not used: two
    schemas checks that differ at most by the payload of their tuple give the
    same run, report and world. *)
Theorem check_server_ignores_schemas :
  (forall v, same_but_payload (check_schemas_endpoint v)
               (check_schemas_endpoint' v)) ->
  forall w,
    check_server uuid4 query check_service_provider_config_endpoint
      check_schemas_endpoint check_resource_types_endpoint
      check_resource_type w
    = check_server uuid4 query check_service_provider_config_endpoint
        check_schemas_endpoint' check_resource_types_endpoint
        check_resource_type w.
Proof.
  intros H w. unfold check_server, bind.
  destruct (check_service_provider_config_endpoint w)
    as [[[r|r1 config]|e] w1]; simpl; try reflexivity.
  specialize (H w1). unfold same_but_payload in H.
  destruct (check_schemas_endpoint w1) as [[[r|r2 s2]|e2] w2],
           (check_schemas_endpoint' w1) as [[[r'|r2' s2']|e2'] w2'];
    simpl in H; destruct H as [<- H]; try contradiction; subst; reflexivity.
Qed.

End SchemasUnused.

Section CommandLineOutput.

Variable Resource : Type.
Variable str_data : Data Resource -> string.

Local Abbreviation lines :=
  (fun verbose (x : Entry Resource) => print_result str_data verbose (result_of x)).
Local Abbreviation attribute_error :=
  (OtherError "AttributeError" "'tuple' object has no attribute 'status'").

(** The loop prints the entries that come before the first tuple. *)
Lemma print_results_bare_prefix (verbose : bool)
    (before rest : list (Entry Resource)) :
  existsb is_tuple before = false ->
  forall stdout,
    print_results str_data verbose (before ++ rest)%list stdout
    = print_results str_data verbose rest
        (stdout ++ flat_map (lines verbose) before)%list.
Proof.
  induction before as [|[r|r p] before IH]; simpl; intros H stdout.
  - now rewrite app_nil_r.
  - rewrite (IH H). now rewrite <- app_assoc.
  - discriminate H.
Qed.

(** A report with a tuple splits at its first tuple. *)
Lemma first_tuple (results : list (Entry Resource)) :
  existsb is_tuple results = true ->
  exists before r p after,
    results = (before ++ Pair r p :: after)%list /\
    existsb is_tuple before = false.
Proof.
  induction results as [|[r|r p] rest IH]; simpl; intros H.
  - discriminate H.
  - destruct (IH H) as (before & r' & p & after & -> & Hb).
    exists (Single r :: before), r', p, after. split; [reflexivity | exact Hb].
  - exists [], r, p, rest. split; reflexivity.
Qed.

(** X11: the loop that prints the report runs to its end exactly when the
    report holds no tuple, and it has then printed, after what was printed
    before, the lines of every entry in the order of the report. *)
Theorem print_results_completes (verbose : bool)
    (results : list (Entry Resource)) (stdout : list string) :
  (fst (print_results str_data verbose results stdout) = Ok tt <->
   existsb is_tuple results = false) /\
  (existsb is_tuple results = false ->
   print_results str_data verbose results stdout
   = (Ok tt, (stdout ++ flat_map (lines verbose) results)%list)).
Proof.
  assert (Hbare : existsb is_tuple results = false ->
                  print_results str_data verbose results stdout
                  = (Ok tt, (stdout ++ flat_map (lines verbose) results)%list)).
  { intros H.
    rewrite <- (app_nil_r results) at 1.
    now rewrite (print_results_bare_prefix verbose results [] H). }
  split; [split|exact Hbare].
  - intros H. destruct (existsb is_tuple results) eqn:E; [|reflexivity].
    destruct (first_tuple results E) as (before & r & p & after & -> & Hb).
    rewrite (print_results_bare_prefix verbose before _ Hb) in H.
    discriminate H.
  - intros H. now rewrite (Hbare H).
Qed.

(** X12: at the first tuple of the report the loop raises an
    [AttributeError]; the entries before it have been printed, the tuple and
    the entries after it have not. *)
Theorem print_results_stops_at_tuple (verbose : bool)
    (before after : list (Entry Resource)) (r : CheckResult Resource)
    (p : ProtocolObject Resource) (stdout : list string) :
  existsb is_tuple before = false ->
  print_results str_data verbose (before ++ Pair r p :: after)%list stdout
  = (Raise attribute_error,
     (stdout ++ flat_map (lines verbose) before)%list).
Proof.
  intros Hb. now rewrite (print_results_bare_prefix verbose before _ Hb).
Qed.

Lemma print_result_quiet (verbose : bool) (r : CheckResult Resource) :
  print_result str_data false r
  = print_result str_data verbose
      (mkCheckResult (status r) (title r) (reason r) None).
Proof.
  unfold print_result. simpl. now rewrite andb_false_r.
Qed.

(** X13: without [--verbose] the payloads play no part in what is printed:
    the output, and the failure if any, are those of the report with every
    payload taken away, in either mode. *)
Theorem print_results_quiet (verbose : bool)
    (results : list (Entry Resource)) :
  forall stdout,
    print_results str_data false results stdout
    = print_results str_data verbose (map without_data results) stdout.
Proof.
  induction results as [|[r|r p] rest IH]; simpl; intros stdout.
  - reflexivity.
  - rewrite IH. now rewrite (print_result_quiet verbose r).
  - reflexivity.
Qed.

Lemma print_result_length (verbose : bool) (r : CheckResult Resource) :
  1 <= length (print_result str_data verbose r)
       <= (if verbose then 3 else 2).
Proof.
  unfold print_result.
  destruct (truthy_reason (reason r)), verbose,
    (truthy_data (data r)), (data r); simpl; lia.
Qed.

Lemma flat_map_length_bounds {A B} (f : A -> list B) (k : nat) (l : list A) :
  (forall x, 1 <= length (f x) <= k) ->
  length l <= length (flat_map f l) <= k * length l.
Proof.
  intros Hf. induction l as [|x l IH]; simpl; [lia|].
  rewrite length_app. specialize (Hf x). lia.
Qed.

Lemma newlines_app (a b : string) :
  newlines (a ++ b) = newlines a + newlines b.
Proof. induction a as [|c a IH]; simpl; [reflexivity | rewrite IH; lia]. Qed.

Lemma terminal_lines_app (a b : list string) :
  terminal_lines (a ++ b) = terminal_lines a + terminal_lines b.
Proof.
  unfold terminal_lines. now rewrite map_app, list_sum_app.
Qed.

Lemma terminal_lines_calls (stdout : list string) :
  length stdout <= terminal_lines stdout /\
  (Forall (fun s => newlines s = 0) stdout ->
   terminal_lines stdout = length stdout).
Proof.
  unfold terminal_lines. induction stdout as [|s stdout [IH1 IH2]]; simpl.
  - split; reflexivity.
  - split; [lia|]. intros H. inversion H as [|? ? Hs Hrest]; subst.
    rewrite Hs, (IH2 Hrest). reflexivity.
Qed.

Lemma status_name_one_line (s : Status) : newlines (status_name s) = 0.
Proof. destruct s; reflexivity. Qed.

Lemma print_result_one_line (verbose : bool) (x : Entry Resource) :
  single_lined str_data x ->
  Forall (fun s => newlines s = 0) (lines verbose x).
Proof.
  intros (Ht & Hr & Hd). unfold print_result.
  constructor.
  - now rewrite !newlines_app, status_name_one_line, Ht.
  - destruct (truthy_reason (reason (result_of x))); [|constructor].
    constructor; [now rewrite !newlines_app, Hr|].
    destruct (verbose && truthy_data (data (result_of x))); [|constructor].
    destruct (data (result_of x)) as [d|] eqn:E; [|constructor].
    constructor; [|constructor].
    now rewrite !newlines_app, (Hd d eq_refl).
Qed.

(** X14: for a report without tuples the loop calls [print] at least once
    for each entry and at most three times, twice without [--verbose]; it
    fills at least one line of the terminal for each entry, and at most
    three, two without [--verbose], when no title, reason or payload is
    printed with a newline in it. *)
Theorem print_results_line_count (verbose : bool)
    (results : list (Entry Resource)) :
  existsb is_tuple results = false ->
  (length results
   <= length (snd (print_results str_data verbose results []))
   <= (if verbose then 3 else 2) * length results) /\
  length results
  <= terminal_lines (snd (print_results str_data verbose results [])) /\
  (Forall (single_lined str_data) results ->
   terminal_lines (snd (print_results str_data verbose results []))
   <= (if verbose then 3 else 2) * length results).
Proof.
  intros H.
  assert (E : print_results str_data verbose results []
              = (Ok tt, flat_map (lines verbose) results)).
  { rewrite <- (app_nil_r results) at 1.
    now rewrite (print_results_bare_prefix verbose results [] H). }
  rewrite E. simpl.
  pose proof (flat_map_length_bounds (lines verbose)
                (if verbose then 3 else 2) results
                (fun x => print_result_length verbose (result_of x)))
    as Hcalls.
  destruct (terminal_lines_calls (flat_map (lines verbose) results))
    as [Hlow Heq].
  split; [exact Hcalls|]. split; [lia|].
  intros Hone. rewrite Heq; [lia|].
  clear - Hone. induction Hone as [|x rest Hx _ IH]; [constructor|].
  change (Forall (fun s => newlines s = 0)
            (lines verbose x ++ flat_map (lines verbose) rest)).
  apply Forall_app. split; [now apply print_result_one_line | exact IH].
Qed.

End CommandLineOutput.

Section CommandLineRun.

Variable Resource : Type.
Variable str_data : Data Resource -> string.
Variables Server Rng : Type.
Variable uuid4 : Rng -> string * Rng.
Variable query : string -> Server -> Result (ProtocolObject Resource) * Server.
Variables ServiceProviderConfig Schemas ResourceType : Type.
Variable check_service_provider_config_endpoint
  : M Server Rng (Returned Resource ServiceProviderConfig).
Variable check_schemas_endpoint : M Server Rng (Returned Resource Schemas).
Variable check_resource_types_endpoint
  : M Server Rng (Returned Resource (option (list ResourceType))).
Variable check_resource_type
  : ResourceType -> ServiceProviderConfig ->
    M Server Rng (list (Entry Resource)).

Local Abbreviation run :=
  (main str_data uuid4 query check_service_provider_config_endpoint
     check_schemas_endpoint check_resource_types_endpoint check_resource_type).

(** X15: when discovery hands back its tuples, the resource checks do not
    raise and the server answers the random URL with a 404 [Error], the
    command line prints the three discovery results and then stops on an
    [AttributeError]: the entry of the random URL check is the tuple that the
    SUCCESS branch returns, and neither it nor any resource result is
    printed. *)
Theorem main_stops_on_success (verbose : bool) (w w1 w2 w3 : World Server Rng)
    (r1 r2 r3 : CheckResult Resource) (config : ServiceProviderConfig)
    (schemas : Schemas) (resource_types : list ResourceType) (e : Error) :
  check_service_provider_config_endpoint w = (Ok (Pair r1 config), w1) ->
  check_schemas_endpoint w1 = (Ok (Pair r2 schemas), w2) ->
  check_resource_types_endpoint w2
  = (Ok (Pair r3 (Some resource_types)), w3) ->
  answer uuid4 query w3 = Ok (ErrorObject e) ->
  err_status e = Some 404%Z ->
  (forall rt v, In rt resource_types ->
     exists rs v', check_resource_type rt config v = (Ok rs, v')) ->
  exists w',
    run verbose w
    = (Raise (OtherError "AttributeError"
                "'tuple' object has no attribute 'status'"),
       (print_result str_data verbose r1
        ++ print_result str_data verbose r2
        ++ print_result str_data verbose r3)%list,
       w').
Proof.
  intros E1 E2 E3 Ha He Htotal.
  pose proof (check_random_url_run _ _ _ uuid4 query w3) as E4.
  rewrite Ha in E4. apply status_ne_404_false in He. rewrite He in E4.
  match type of E4 with _ = (_, ?v) => set (w4 := v) in E4 end.
  destruct (resource_runs_total _ _ _ _ _ check_resource_type config
              resource_types Htotal w4) as (rss & w' & Hr).
  exists w'. unfold main.
  rewrite (proj2 (check_server_spec _ _ _ uuid4 query _ _ _
                    check_service_provider_config_endpoint
                    check_schemas_endpoint check_resource_types_endpoint
                    check_resource_type w w' _)
             (ex_intro _ r1 (ex_intro _ config (ex_intro _ w1
                (ex_intro _ r2 (ex_intro _ schemas (ex_intro _ w2
                (ex_intro _ r3 (ex_intro _ resource_types (ex_intro _ w3
                (ex_intro _ _ (ex_intro _ w4 (ex_intro _ rss
                (conj E1 (conj E2 (conj E3 (conj E4 (conj Hr eq_refl)))))
                ))))))))))))).
  simpl. rewrite <- !app_assoc. reflexivity.
Qed.

End CommandLineRun.

(** * The further properties on the mock servers *)

Section MoreOnMocks.

Import Mock.

Local Abbreviation run_server := (check_server uuid4).
Local Abbreviation unpack_error :=
  (TypeError "cannot unpack non-iterable CheckResult object").
Local Abbreviation w1 := (mkWorld (Rng := Rng) tt 1).

(** A client that fails with a [ValueError]: the body lets it through. *)
Lemma check_random_url_body_raises_witness :
  check_random_url_body uuid4 broken w0
  = (Raise (OtherError "ValueError" "invalid URL"), w1).
Proof.
  apply (proj2 (check_random_url_body_raises _ _ _ uuid4 broken w0 w1
                  (OtherError "ValueError" "invalid URL"))).
  repeat split.
Defined.

Lemma check_server_no_resource_types_witness :
  exists r1 r2 r3 r4,
    run_server conformant config_endpoint schemas_endpoint no_resource_types
      lifecycle w0
    = (Ok [Single r1; Single r2; Single r3; r4], w1).
Proof.
  destruct (check_server_no_resource_types _ _ _ uuid4 conformant _ _ _
              config_endpoint schemas_endpoint no_resource_types lifecycle
              w0 w0 w0 w0 _ _ _ _ _ eq_refl eq_refl eq_refl)
    as (r4 & _ & E).
  eexists _, _, _, r4. exact E.
Defined.

Lemma check_server_none_resource_types_witness :
  run_server conformant config_endpoint schemas_endpoint
    resource_types_reported lifecycle w0
  = (Raise (TypeError "'NoneType' object is not iterable"), w1).
Proof.
  exact (check_server_none_resource_types _ _ _ uuid4 conformant _ _ _
           config_endpoint schemas_endpoint resource_types_reported lifecycle
           w0 w0 w0 w0 _ _ _ _ _ eq_refl eq_refl eq_refl).
Defined.

(** An endpoint out of reach at each of the three discovery steps. *)
Lemma check_server_bare_result_witness :
  run_server conformant config_unreached schemas_endpoint
    resource_types_endpoint lifecycle w0 = (Raise unpack_error, w0) /\
  run_server conformant config_endpoint
    (unreached (P := Schemas) "check_schemas_endpoint")
    resource_types_endpoint lifecycle w0 = (Raise unpack_error, w0) /\
  run_server conformant config_endpoint schemas_endpoint
    (unreached "check_resource_types_endpoint") lifecycle w0
  = (Raise unpack_error, w0).
Proof.
  split; [|split].
  - exact (proj1 (check_server_bare_result _ _ _ uuid4 conformant _ _ _
                    config_unreached schemas_endpoint resource_types_endpoint
                    lifecycle w0) _ _ eq_refl).
  - exact (proj1 (proj2 (check_server_bare_result _ _ _ uuid4 conformant _ _ _
                           config_endpoint (unreached "check_schemas_endpoint")
                           resource_types_endpoint lifecycle w0))
             _ _ _ _ _ eq_refl eq_refl).
  - exact (proj2 (proj2 (check_server_bare_result _ _ _ uuid4 conformant _ _ _
                           config_endpoint schemas_endpoint
                           (unreached "check_resource_types_endpoint")
                           lifecycle w0))
             _ _ _ _ _ _ _ _ eq_refl eq_refl eq_refl).
Defined.

(** A discovery check that raises at each of the three steps. *)
Lemma check_server_propagates_witness :
  run_server conformant crashing schemas_endpoint resource_types_endpoint
    lifecycle w0
  = (Raise (OtherError "KeyError" "patch"), w0) /\
  run_server conformant config_endpoint (crashing (P := Schemas))
    resource_types_endpoint lifecycle w0
  = (Raise (OtherError "KeyError" "patch"), w0) /\
  run_server conformant config_endpoint schemas_endpoint crashing lifecycle w0
  = (Raise (OtherError "KeyError" "patch"), w0).
Proof.
  split; [|split].
  - exact (proj1 (check_server_propagates _ _ _ uuid4 conformant _ _ _
                    crashing schemas_endpoint resource_types_endpoint
                    lifecycle w0 _) _ eq_refl).
  - exact (proj1 (proj2 (check_server_propagates _ _ _ uuid4 conformant _ _ _
                           config_endpoint crashing resource_types_endpoint
                           lifecycle w0 _))
             _ _ _ _ eq_refl eq_refl).
  - exact (proj2 (proj2 (check_server_propagates _ _ _ uuid4 conformant _ _ _
                           config_endpoint schemas_endpoint crashing
                           lifecycle w0 _))
             _ _ _ _ _ _ _ eq_refl eq_refl eq_refl).
Defined.

(** The resource check raises on the second resource type. *)
Lemma check_server_resource_failure_witness :
  run_server conformant config_endpoint schemas_endpoint
    resource_types_endpoint fragile_lifecycle w0
  = (Raise (OtherError "KeyError" "members"), w1).
Proof.
  apply (proj2 (check_server_resource_failure _ _ _ uuid4 conformant _ _ _
                  config_endpoint schemas_endpoint resource_types_endpoint
                  fragile_lifecycle w0 w0 w0 w0 w1 _ _ _ _ _ _
                  (OtherError "KeyError" "members") eq_refl eq_refl eq_refl)).
  exists ["User"], "Group", [].
  eexists [_], w1.
  split; [reflexivity|]. split; [|reflexivity].
  eapply runs_cons; [reflexivity | apply runs_nil].
Defined.

Lemma check_server_ignores_schemas_witness :
  run_server conformant config_endpoint schemas_endpoint
    resource_types_endpoint lifecycle w0
  = run_server conformant config_endpoint other_schemas_endpoint
      resource_types_endpoint lifecycle w0.
Proof.
  apply (check_server_ignores_schemas _ _ _ uuid4 conformant _ _ _ _
           config_endpoint schemas_endpoint other_schemas_endpoint
           resource_types_endpoint lifecycle).
  intros v. split; reflexivity.
Defined.

Local Abbreviation failed :=
  (mkCheckResult (Resource := Resource) ERROR (Some "check_random_url")
     (Some "All connection attempts failed") None).
Local Abbreviation passed :=
  (mkCheckResult (Resource := Resource) SUCCESS (Some "check_schemas_endpoint")
     None None).

Lemma print_results_completes_witness :
  print_results str_data true [Single passed; Single failed] []
  = (Ok tt,
     ["SUCCESS check_schemas_endpoint"; "ERROR check_random_url";
      "   All connection attempts failed"]).
Proof.
  exact (proj2 (print_results_completes _ str_data true
                  [Single passed; Single failed] []) eq_refl).
Defined.

Lemma print_results_stops_at_tuple_witness :
  print_results str_data true
    [Single passed; Pair passed not_found; Single failed] []
  = (Raise (OtherError "AttributeError"
              "'tuple' object has no attribute 'status'"),
     ["SUCCESS check_schemas_endpoint"]).
Proof.
  exact (print_results_stops_at_tuple _ str_data true [Single passed]
           [Single failed] passed not_found [] eq_refl).
Defined.

Lemma print_results_line_count_witness :
  2 <= terminal_lines (snd (print_results str_data false
                              [Single passed; Single failed] [])) <= 4.
Proof.
  destruct (print_results_line_count _ str_data false
              [Single passed; Single failed] eq_refl) as (_ & Hlow & Hup).
  split; [exact Hlow|].
  apply Hup. repeat constructor; intros d H; discriminate H.
Defined.

(** The command line against the conformant server. *)
Lemma main_stops_on_success_witness :
  exists w',
    main str_data uuid4 conformant config_endpoint schemas_endpoint
      resource_types_endpoint lifecycle false w0
    = (Raise (OtherError "AttributeError"
                "'tuple' object has no attribute 'status'"),
       ["SUCCESS check_service_provider_config_endpoint";
        "SUCCESS check_schemas_endpoint";
        "SUCCESS check_resource_types_endpoint"],
       w').
Proof.
  apply (main_stops_on_success _ str_data _ _ uuid4 conformant _ _ _
           config_endpoint schemas_endpoint resource_types_endpoint lifecycle
           false w0 w0 w0 w0 _ _ _ _ _ ["User"; "Group"]
           (mkError (Some 404%Z) None (Some "Resource not found"))
           eq_refl eq_refl eq_refl eq_refl eq_refl).
  intros rt v _. eexists _, _. reflexivity.
Defined.

End MoreOnMocks.
